(** * Envelope-based anomaly detection (module_7_notebook.ipynb)

    A shallow embedding of the notebook's functions
    [bandpass_filter], [preprocessing], [create_single_envelope],
    [train_envelope] and [check_parts], and the properties of the
    pipeline's contract.

    Numbers.  The notebook computes on numpy [float64] arrays.  Samples
    are modelled as real numbers; a [float64] scalar is a real number or
    one of the IEEE special values [+inf], [-inf], [nan], so that the
    result of [np.mean] on an empty array (0/0 = nan, with a warning and
    no exception) and the comparisons with nan (always false) are the
    ones of the code.  Rounding and signed zeros are not modelled.

    Library calls.  [scipy.signal.butter], [filtfilt], [hilbert] and
    [scipy.stats.norm.ppf] are calls into scipy.  Their numerical kernels
    are variables of the section; the argument validation that scipy
    performs before it runs a kernel (the [ValueError]s it raises) is
    written out. *)

From Stdlib Require Import String DecimalString.
From Stdlib Require Import Reals Lra Lia ZArith List Bool Sorted.
Import ListNotations.

Local Open Scope R_scope.

(** ** numpy scalars and arrays *)

Inductive float64 : Type :=
| Fin (x : R)
| PInf
| NInf
| NaN.

(** A value returned by a numpy reduction: a 0-d scalar or a 1-d array of
    samples. *)
Inductive ndarray : Type :=
| Scalar (x : float64)
| Array1 (xs : list R).

Record complex : Type := mkC { re : R; im : R }.

Module F64.

Definition add (a b : float64) : float64 :=
  match a, b with
  | NaN, _ | _, NaN => NaN
  | Fin x, Fin y => Fin (x + y)
  | PInf, NInf | NInf, PInf => NaN
  | PInf, _ | _, PInf => PInf
  | NInf, _ | _, NInf => NInf
  end.

Definition neg (a : float64) : float64 :=
  match a with
  | Fin x => Fin (- x)
  | PInf => NInf
  | NInf => PInf
  | NaN => NaN
  end.

Definition sub (a b : float64) : float64 := add a (neg b).

(** Sign of an infinity scaled by a real factor; [inf * 0] is nan. *)
Definition scale_inf (pos : bool) (y : R) : float64 :=
  if Rlt_dec 0 y then (if pos then PInf else NInf)
  else if Rlt_dec y 0 then (if pos then NInf else PInf)
  else NaN.

Definition mul (a b : float64) : float64 :=
  match a, b with
  | NaN, _ | _, NaN => NaN
  | Fin x, Fin y => Fin (x * y)
  | PInf, Fin y => scale_inf true y
  | NInf, Fin y => scale_inf false y
  | Fin x, PInf => scale_inf true x
  | Fin x, NInf => scale_inf false x
  | PInf, PInf | NInf, NInf => PInf
  | PInf, NInf | NInf, PInf => NInf
  end.

Definition sqrt (a : float64) : float64 :=
  match a with
  | Fin x => if Rlt_dec x 0 then NaN else Fin (R_sqrt.sqrt x)
  | PInf => PInf
  | NInf | NaN => NaN
  end.

(** [a > b]; false as soon as one side is nan. *)
Definition gt (a b : float64) : bool :=
  match a, b with
  | NaN, _ | _, NaN => false
  | Fin x, Fin y => if Rlt_dec y x then true else false
  | PInf, PInf => false
  | PInf, _ => true
  | _, PInf => false
  | NInf, _ => false
  | Fin _, NInf => true
  end.

(** [a <= b]; false as soon as one side is nan. *)
Definition le (a b : float64) : bool :=
  match a, b with
  | NaN, _ | _, NaN => false
  | Fin x, Fin y => if Rle_dec x y then true else false
  | NInf, _ => true
  | _, PInf => true
  | _, NInf => false
  | PInf, Fin _ => false
  end.

End F64.

(** ** Exceptions *)

Inductive exn : Type :=
| ValueError
| IndexError.

Inductive result (A : Type) : Type :=
| Ok (a : A)
| Raise (e : exn).
Arguments Ok {A} a.
Arguments Raise {A} e.

Definition bind {A B : Type} (m : result A) (k : A -> result B) : result B :=
  match m with
  | Ok a => k a
  | Raise e => Raise e
  end.

Notation "x <- m ;; k" := (bind m (fun x => k))
  (at level 61, m at next level, right associativity).
Notation "' pat <- m ;; k" := (bind m (fun x => match x with pat => k end))
  (at level 61, pat pattern, m at next level, right associativity).

Definition raises {A : Type} (m : result A) : Prop := exists e, m = Raise e.

(** ** numpy reductions *)

(** [np.add.reduce] of a 1-d array. *)
Definition np_sum (xs : list R) : R := fold_left Rplus xs 0.

(** [np.mean] of a 1-d array: sum over count; 0/0 on the empty array. *)
Definition mean1 (xs : list R) : float64 :=
  match xs with
  | [] => NaN
  | _ :: _ => Fin (np_sum xs / INR (length xs))
  end.

(** [np.var] (ddof = 0) of a 1-d array, as numpy computes it: the array
    is centred on its mean, squared elementwise, summed and divided by
    the count. *)
Definition var1 (xs : list R) : float64 :=
  match xs with
  | [] => NaN
  | _ :: _ =>
      let arrmean := np_sum xs / INR (length xs) in
      let x := map (fun v => v - arrmean) xs in
      let x := map (fun v => v * v) x in
      Fin (np_sum x / INR (length xs))
  end.

Definition np_mean (a : ndarray) : float64 :=
  match a with
  | Scalar x => x
  | Array1 xs => mean1 xs
  end.

Definition np_std (a : ndarray) : float64 :=
  match a with
  | Scalar x => let d := F64.sub x x in F64.sqrt (F64.mul d d)
  | Array1 xs => F64.sqrt (var1 xs)
  end.

(** [np.absolute] on a real array and [np.abs] on a complex one. *)
Definition np_absolute (xs : list R) : list R := map Rabs xs.

Definition Cabs (c : complex) : R := sqrt (re c * re c + im c * im c).

Definition np_abs (cs : list complex) : list R := map Cabs cs.

(** Elementwise sum of two rows of equal length. *)
Fixpoint add_rows (r1 r2 : list R) : list R :=
  match r1, r2 with
  | x :: r1', y :: r2' => (x + y) :: add_rows r1' r2'
  | _, _ => []
  end.

(** [np.mean(rows, axis=0)] on a Python list of 1-d arrays.  The list is
    converted to an array first: the empty list becomes an array of shape
    (0,), whose mean is the scalar nan; rows of differing lengths make
    the conversion raise [ValueError] (inhomogeneous shape); otherwise the
    rows are summed elementwise and divided by their number. *)
Definition np_mean_axis0 (rows : list (list R)) : result ndarray :=
  match rows with
  | [] => Ok (Scalar NaN)
  | r :: rest =>
      if forallb (fun r' => Nat.eqb (length r') (length r)) rest
      then Ok (Array1 (map (fun s => s / INR (length rows))
                           (fold_left add_rows rest r)))
      else Raise ValueError
  end.

(** ** Notebook state *)

(** The sampling rate of the sensor, fixed in the first cell. *)
Definition sampling_rate : R := 25600.

(** The module-level names that the functions read when they are called:
    the confidence level and the two corpora, one selected channel per
    bearing. *)
Record globals : Type := mkGlobals {
  CONFIDENCE_LVL : R;
  train_data : list (list R);
  test_data : list (list R)
}.

(** [lst[i]] for a non-negative index. *)
Definition getitem {A : Type} (lst : list A) (i : nat) : result A :=
  match nth_error lst i with
  | Some a => Ok a
  | None => Raise IndexError
  end.

(** [enumerate(lst)] *)
Definition enumerate {A : Type} (lst : list A) : list (nat * A) :=
  combine (seq 0 (length lst)) lst.

(** The text printed by [print(f'Only {n_files} files in directory!')]. *)
Definition notice (n_files : nat) : string :=
  ("Only " ++ NilEmpty.string_of_uint (Nat.to_uint n_files)
           ++ " files in directory!")%string.

(** Local variables of [check_parts]. *)
Record locals : Type := mkLocals {
  mean_envelope : float64;
  std_envelope : float64;
  z : float64;
  threshold : float64;
  data_bad_parts : list (list R);
  indexes_bad_parts : list nat
}.

(** ** Definitions used to state the properties *)

(** The flagged entries of a test corpus for a given threshold, with
    their positions counted from [i]. *)
Fixpoint flagged_from (thr : float64) (i : nat) (parts : list (list R))
  : list (nat * list R) :=
  match parts with
  | [] => []
  | p :: parts' =>
      if F64.gt (mean1 p) thr
      then (i, p) :: flagged_from thr (S i) parts'
      else flagged_from thr (S i) parts'
  end.

(** Arithmetic mean and population variance (divide by N) the way a
    textbook writes them. *)
Definition arith_mean (E : list R) : R :=
  fold_right Rplus 0 E / INR (length E).

Definition population_variance (E : list R) : R :=
  1 / INR (length E)
  * fold_right (fun e acc => (e - arith_mean E) ^ 2 + acc) 0 E.


(** Stand-ins for the scipy kernels, to run the functions on concrete
    inputs: an all-pass filter, an analytic signal with a zero imaginary
    part, and an increasing finite quantile. *)
Module Sample.

Definition butter_kernel (order : nat) (Wn0 Wn1 : R)
  : result (list R * list R) := Ok ([1], [1]).

Definition filtfilt_kernel (b a x : list R) : result (list R) := Ok x.

Definition hilbert (x : list R) : result (list complex) :=
  Ok (map (fun v => mkC v 0) x).

Definition norm_ppf (p : R) : float64 := Fin (4 * p - 2).

(** The notebook's confidence level, and a lower one, with no data
    loaded; a corpus of one short training signal. *)
Definition notebook : globals := mkGlobals (95 / 100) [] [].


Definition one_bearing : globals :=
  mkGlobals (95 / 100) [[1; -2; 3; -4]] [[7; 7; 7; 7]].

Definition envelope : list R := [1; 3].

Definition parts : list (list R) := [[1]; [9]; [2]; [4]].

End Sample.

(** ** The data-loading cell *)

(** A 2-d numpy array as [pickle.load] returns one per bearing: shape
    [(length rows, ncols)], every row holding [ncols] samples. *)
Record array2 : Type := mkArray2 {
  ncols : nat;
  rows : list (list R)
}.

Definition well_shaped (data : array2) : Prop :=
  Forall (fun row => length row = ncols data) (rows data).

(** [data[:, k]]: column [k], or [IndexError] when axis 1 is too small. *)
Definition column (data : array2) (k : nat) : result (list R) :=
  if Nat.ltb k (ncols data)
  then Ok (map (fun row => nth k row 0) (rows data))
  else Raise IndexError.

(** The loop [for idx, data in enumerate(corpus)] that replaces entry
    [idx] by column 4 when [SENSOR == 'horizontal'] and by column 5
    otherwise; entries are visited once, in order. *)
Fixpoint select_channel (SENSOR : string) (corpus : list array2)
  : result (list (list R)) :=
  match corpus with
  | [] => Ok []
  | data :: corpus' =>
      channel <- (if String.eqb SENSOR "horizontal"
                  then column data 4
                  else column data 5) ;;
      selected <- select_channel SENSOR corpus' ;;
      Ok (channel :: selected)
  end.

(** [str(n)] for a length, and [str(lst)] for a list of indices. *)
Definition str_nat (n : nat) : string :=
  NilEmpty.string_of_uint (Nat.to_uint n).

Definition str_list (lst : list nat) : string :=
  ("[" ++ String.concat ", " (map str_nat lst) ++ "]")%string.

(** The loading cell after [pickle.load] has returned the two corpora:
    what it prints, and the notebook state it leaves. *)
Definition load_cell (SENSOR : string) (confidence : R)
           (train_pkl test_pkl : list array2)
  : list string * result globals :=
  match (train <- select_channel SENSOR train_pkl ;;
         test <- select_channel SENSOR test_pkl ;;
         Ok (mkGlobals confidence train test)) with
  | Ok g =>
      ([("Size training set: " ++ str_nat (length (train_data g)))%string;
        ("Size training set: " ++ str_nat (length (test_data g)))%string],
       Ok g)
  | Raise e => ([], Raise e)
  end.

(** Sum of the samples at position [k] over a list of rows. *)
Definition col_sum (k : nat) (rws : list (list R)) : R :=
  fold_right (fun row acc => nth k row 0 + acc) 0 rws.

(** Rows that all have one length. *)
Definition uniform (rws : list (list R)) : Prop :=
  forall r1 r2, In r1 rws -> In r2 rws -> length r1 = length r2.

(** More concrete inputs: two pickled bearings with six channels, and a
    notebook state with one training and two test signals. *)
Module Demo.

Definition bearing_a : array2 :=
  mkArray2 6 [[0; 0; 0; 0; 1; 10]; [0; 0; 0; 0; 2; 20]].

Definition bearing_b : array2 :=
  mkArray2 6 [[0; 0; 0; 0; 3; 30]].

Definition narrow : array2 := mkArray2 5 [[0; 0; 0; 0; 1]].

Definition state : globals :=
  mkGlobals (95 / 100) [[2; -2; 2; -2]] [[1; 1; 1; 1]; [9; 9; 9; 9]].

Definition untrained : globals :=
  mkGlobals (95 / 100) [] [[1; 1; 1; 1]; [9; 9; 9; 9]].

Definition two_bearings : globals :=
  mkGlobals (95 / 100) [[2; -2; 2; -2]; [4; 4; -4; -4]] [].

Definition ragged : globals :=
  mkGlobals (95 / 100) [[2; -2; 2; -2]; [1; 2; 3; 4; 5]] [].

Definition short_signal : globals :=
  mkGlobals (95 / 100) [[1; 2; 3]] [[9; 9; 9; 9]; []].

Definition bad_test : globals :=
  mkGlobals (95 / 100) [[2; -2; 2; -2]] [[9; 9; 9; 9]; []].

(** A quantile that answers [+inf] once its argument is within half a
    unit in the last place of 1, where a double argument is 1.0; and a
    confidence level below 1 for which that happens. *)
Definition rounded_ppf (p : R) : float64 :=
  if Rle_dec (1 - 1 / 18014398509481984) p then PInf else Fin (4 * p - 2).

Definition near_one : globals :=
  mkGlobals (1 - 1 / 9007199254740992) [] [].

(** The envelope that the stand-in kernels give for a signal. *)
Definition envelope_of (data : list R) : list R :=
  np_abs (map (fun v => mkC v 0) (np_absolute data)).

End Demo.

(** Decides the comparisons of real constants met when a function runs
    on concrete numbers. *)
Ltac decide_reals :=
  repeat match goal with
         | |- context [Rlt_dec ?a ?b] => destruct (Rlt_dec a b); try lra
         | |- context [Rle_dec ?a ?b] => destruct (Rle_dec a b); try lra
         end.

Section Notebook.

Set Default Proof Using "Type".

(** *** scipy *)

(** Filter design of [butter] for a band [Wn0, Wn1] given as fractions
    of the Nyquist frequency: the coefficient arrays [(b, a)]. *)
Variable butter_kernel : nat -> R -> R -> result (list R * list R).

(** Forward-backward filtering of [filtfilt] once the padding length is
    accepted. *)
Variable filtfilt_kernel : list R -> list R -> list R -> result (list R).

(** [scipy.signal.hilbert]: the analytic signal. *)
Variable hilbert : list R -> result (list complex).

(** [scipy.stats.norm.ppf]: the standard normal quantile, together with
    the rounding of its argument to a double. *)
Variable norm_ppf : R -> float64.

(** [butter(order, [lowcut, highcut], btype='band', fs=fs)].  The
    critical frequencies are divided by [fs/2]; scipy raises
    [ValueError] unless [0 < Wn[0] < Wn[1] < 1]. *)
Definition butter (order : nat) (lowcut highcut fs : R)
  : result (list R * list R) :=
  let Wn0 := 2 * lowcut / fs in
  let Wn1 := 2 * highcut / fs in
  if Rle_dec Wn0 0 then Raise ValueError
  else if Rle_dec Wn1 0 then Raise ValueError
  else if Rlt_dec Wn0 Wn1 then
    if Rle_dec 1 Wn0 then Raise ValueError
    else if Rle_dec 1 Wn1 then Raise ValueError
    else butter_kernel order Wn0 Wn1
  else Raise ValueError.

(** Default padding of [filtfilt]: three times the number of taps. *)
Definition padlen (b a : list R) : nat :=
  3 * Nat.max (length a) (length b).

(** [filtfilt(b, a, x)]: scipy raises [ValueError] unless the signal is
    longer than the padding. *)
Definition filtfilt (b a x : list R) : result (list R) :=
  if Nat.leb (length x) (padlen b a) then Raise ValueError
  else filtfilt_kernel b a x.

(** *** The notebook's functions *)

Definition bandpass_filter (data : list R) (lowcut highcut : R)
           (order : nat) : result (list R) :=
  '(b, a) <- butter order lowcut highcut sampling_rate ;;
  filtfilt b a data.

Definition preprocessing (input_data : list R) : result (list R) :=
  input_data_filtered <- bandpass_filter input_data 1000 10000 4 ;;
  Ok (np_absolute input_data_filtered).

Definition create_single_envelope (input_signal : list R)
  : result (list R) :=
  transformed_signal <- hilbert input_signal ;;
  let envelope := np_abs transformed_signal in
  Ok envelope.

(** The [while i < n_parts] loop of [train_envelope]: [i] is the loop
    counter and [todo] the number of iterations left, [n_parts - i]. *)
Fixpoint envelope_loop (corpus : list (list R)) (i todo : nat)
         (single_envelopes : list (list R)) : result (list (list R)) :=
  match todo with
  | O => Ok single_envelopes
  | S todo' =>
      data <- getitem corpus i ;;
      data_signal <- preprocessing data ;;
      env <- create_single_envelope data_signal ;;
      envelope_loop corpus (S i) todo' (single_envelopes ++ [env])
  end.

(** [train_envelope(n_parts)]: what is printed, and the value returned
    or the exception raised. *)
Definition train_envelope (g : globals) (n_parts : Z)
  : list string * result ndarray :=
  let n_files := Z.of_nat (length (train_data g)) in
  let '(n_parts, stdout) :=
    if (n_files <? n_parts)%Z
    then (n_files, [notice (length (train_data g))])
    else (n_parts, [])
  in
  (stdout,
   single_envelopes <- envelope_loop (train_data g) 0 (Z.to_nat n_parts) [] ;;
   np_mean_axis0 single_envelopes).

(** One iteration of the [for idx, test_part in enumerate(...)] loop. *)
Definition check_step (st : locals) (it : nat * list R) : locals :=
  let '(idx, test_part) := it in
  let mean_test_part := np_mean (Array1 test_part) in
  if F64.gt mean_test_part (threshold st)
  then mkLocals (mean_envelope st) (std_envelope st) (z st) (threshold st)
                (data_bad_parts st ++ [test_part])
                (indexes_bad_parts st ++ [idx])
  else st.

(** The local variables of [check_parts] when it reaches [return]. *)
Definition check_parts_locals (g : globals)
           (data_test_parts : list (list R)) (envelope : ndarray)
  : locals :=
  let mean_envelope := np_mean envelope in
  let std_envelope := np_std envelope in
  let z := norm_ppf ((1 + CONFIDENCE_LVL g) / 2) in
  let threshold := F64.add mean_envelope (F64.mul z std_envelope) in
  fold_left check_step (enumerate data_test_parts)
            (mkLocals mean_envelope std_envelope z threshold [] []).

Definition check_parts (g : globals)
           (data_test_parts : list (list R)) (envelope : ndarray)
  : result (list (list R) * list nat) :=
  let st := check_parts_locals g data_test_parts envelope in
  Ok (data_bad_parts st, indexes_bad_parts st).

(** The per-signal envelopes of a list of signals, in order; the first
    signal on which the pipeline raises decides the exception. *)
Fixpoint envelopes_of (signals : list (list R)) : result (list (list R)) :=
  match signals with
  | [] => Ok []
  | data :: signals' =>
      data_signal <- preprocessing data ;;
      env <- create_single_envelope data_signal ;;
      envs <- envelopes_of signals' ;;
      Ok (env :: envs)
  end.

(** The loop of the last cell that preprocesses the test corpus. *)
Fixpoint test_loop (todo : list (list R)) (data_test_parts : list (list R))
  : result (list (list R)) :=
  match todo with
  | [] => Ok data_test_parts
  | data :: todo' =>
      data' <- preprocessing data ;;
      test_loop todo' (data_test_parts ++ [data'])
  end.

(** The last cell up to its two [print] calls (the plot that follows is
    left out): the reference envelope from at most 400 training signals,
    the preprocessed test corpus, the classification and the report. *)
Definition main_cell (g : globals)
  : list string * result (ndarray * list (list R) * list nat) :=
  let '(stdout, trained) := train_envelope g 400 in
  match (envelope <- trained ;;
         data_test_parts <- test_loop (test_data g) [] ;;
         '(data_bad_parts, indexes_bad_parts) <-
            check_parts g data_test_parts envelope ;;
         Ok (envelope, data_bad_parts, indexes_bad_parts)) with
  | Ok (envelope, data_bad_parts, indexes_bad_parts) =>
      (stdout ++
       [(str_nat (length data_bad_parts)
           ++ " bad parts were identified.")%string;
        ("Indexes of bad parts: " ++ str_list indexes_bad_parts)%string],
       Ok (envelope, data_bad_parts, indexes_bad_parts))
  | Raise e => (stdout, Raise e)
  end.

(** ** Properties *)

(** *** Sums, means and deviations *)

Lemma fold_left_Rplus (xs : list R) (a : R) :
  fold_left Rplus xs a = a + np_sum xs.
Proof.
  unfold np_sum. revert a.
  induction xs as [|x xs IH]; intros a; simpl.
  - lra.
  - rewrite (IH (a + x)), (IH (0 + x)). lra.
Qed.

Lemma np_sum_cons (x : R) (xs : list R) :
  np_sum (x :: xs) = x + np_sum xs.
Proof.
  unfold np_sum at 1. simpl. rewrite fold_left_Rplus. lra.
Qed.

Lemma np_sum_fold_right (xs : list R) :
  np_sum xs = fold_right Rplus 0 xs.
Proof.
  induction xs as [|x xs IH]; [reflexivity|].
  rewrite np_sum_cons, IH. reflexivity.
Qed.

Lemma np_sum_squares_nonneg (m : R) (xs : list R) :
  0 <= np_sum (map (fun v => v * v) (map (fun v => v - m) xs)).
Proof.
  induction xs as [|x xs IH]; simpl.
  - unfold np_sum. simpl. lra.
  - rewrite np_sum_cons.
    pose proof (Rle_0_sqr (x - m)) as Hsq. unfold Rsqr in Hsq. lra.
Qed.

Lemma np_sum_squares_fold (m : R) (xs : list R) :
  np_sum (map (fun v => v * v) (map (fun v => v - m) xs)) =
  fold_right (fun e acc => (e - m) ^ 2 + acc) 0 xs.
Proof.
  induction xs as [|x xs IH]; cbn [map fold_right].
  - reflexivity.
  - rewrite np_sum_cons, IH. ring.
Qed.

Lemma INR_length_pos {A : Type} (x : A) (xs : list A) :
  0 < INR (length (x :: xs)).
Proof. apply lt_0_INR. simpl. lia. Qed.

Lemma mean1_nonempty (E : list R) :
  E <> [] -> mean1 E = Fin (np_sum E / INR (length E)).
Proof. destruct E; [congruence | reflexivity]. Qed.

(** On a non-empty array the variance is a non-negative real. *)
Lemma var1_nonempty (E : list R) :
  E <> [] ->
  exists v, var1 E = Fin v /\ 0 <= v /\ v = population_variance E.
Proof.
  intros HE. destruct E as [|e E]; [congruence|].
  eexists. split; [reflexivity|].
  pose proof (INR_length_pos e E) as HN.
  split.
  - apply Rmult_le_pos.
    + apply np_sum_squares_nonneg.
    + left. now apply Rinv_0_lt_compat.
  - unfold population_variance, arith_mean.
    rewrite np_sum_squares_fold, <- np_sum_fold_right.
    unfold Rdiv. lra.
Qed.

Lemma f64_sqrt_nonneg (v : R) :
  0 <= v -> F64.sqrt (Fin v) = Fin (sqrt v).
Proof.
  intros Hv. unfold F64.sqrt.
  destruct (Rlt_dec v 0); [lra | reflexivity].
Qed.

Lemma np_std_nonempty (E : list R) :
  E <> [] ->
  exists sigma, np_std (Array1 E) = Fin sigma /\ 0 <= sigma
                /\ sigma * sigma = population_variance E.
Proof.
  intros HE. destruct (var1_nonempty E HE) as (v & Hv & Hpos & Heq).
  exists (sqrt v). simpl. rewrite Hv, f64_sqrt_nonneg by assumption.
  split; [reflexivity|]. split; [apply sqrt_pos|].
  rewrite sqrt_sqrt by assumption. exact Heq.
Qed.

(** *** The classification loop *)

(** One iteration leaves the reference statistics and the threshold
    alone and appends at most one entry to each result list. *)
Lemma check_step_spec (st : locals) (i : nat) (p : list R) :
  let st' := check_step st (i, p) in
  let hit := F64.gt (mean1 p) (threshold st) in
  mean_envelope st' = mean_envelope st /\
  std_envelope st' = std_envelope st /\
  z st' = z st /\
  threshold st' = threshold st /\
  data_bad_parts st' = data_bad_parts st ++ (if hit then [p] else []) /\
  indexes_bad_parts st' = indexes_bad_parts st ++ (if hit then [i] else []).
Proof.
  cbv zeta. unfold check_step. cbn [np_mean].
  destruct (F64.gt (mean1 p) (threshold st)); cbn;
    rewrite ?app_nil_r; repeat split; reflexivity.
Qed.

(** The loop leaves the threshold alone and appends the flagged
    entries, in corpus order, to the two result lists. *)
Lemma check_loop (parts : list (list R)) :
  forall (i : nat) (st : locals),
    let st' := fold_left check_step (combine (seq i (length parts)) parts) st in
    mean_envelope st' = mean_envelope st /\
    std_envelope st' = std_envelope st /\
    z st' = z st /\
    threshold st' = threshold st /\
    data_bad_parts st' =
      data_bad_parts st ++ map snd (flagged_from (threshold st) i parts) /\
    indexes_bad_parts st' =
      indexes_bad_parts st ++ map fst (flagged_from (threshold st) i parts).
Proof.
  induction parts as [|p parts IH]; intros i st;
    cbn [length seq combine fold_left flagged_from].
  - cbn. rewrite !app_nil_r. repeat split; reflexivity.
  - specialize (IH (S i) (check_step st (i, p))).
    cbv zeta in IH. destruct IH as (Hm & Hs & Hz & Ht & Hd & Hi).
    destruct (check_step_spec st i p) as (Hm1 & Hs1 & Hz1 & Ht1 & Hd1 & Hi1).
    cbv zeta. rewrite Hm, Hs, Hz, Ht, Hd, Hi, Hm1, Hs1, Hz1, Ht1, Hd1, Hi1.
    destruct (F64.gt (mean1 p) (threshold st)); cbn [map fst snd];
      rewrite <- ?app_assoc, ?app_nil_r; repeat split; reflexivity.
Qed.

Lemma flagged_from_bound (thr : float64) (parts : list (list R)) :
  forall i j s, In (j, s) (flagged_from thr i parts) -> (i <= j)%nat.
Proof.
  induction parts as [|p parts IH]; intros i j s; cbn [flagged_from].
  - intros [].
  - destruct (F64.gt (mean1 p) thr).
    + intros [Heq | Hin].
      * inversion Heq. lia.
      * apply IH in Hin. lia.
    + intros Hin. apply IH in Hin. lia.
Qed.

Lemma flagged_from_In (thr : float64) (parts : list (list R)) :
  forall i j s,
    In (j, s) (flagged_from thr i parts) <->
    (i <= j)%nat /\ nth_error parts (j - i) = Some s
    /\ F64.gt (mean1 s) thr = true.
Proof.
  induction parts as [|p parts IH]; intros i j s; cbn [flagged_from].
  - split; [intros [] | intros (_ & H & _)].
    destruct (j - i)%nat; discriminate.
  - assert (Htail : In (j, s) (flagged_from thr (S i) parts) <->
                    (i < j)%nat /\ nth_error (p :: parts) (j - i) = Some s
                    /\ F64.gt (mean1 s) thr = true).
    { rewrite IH. split.
      - intros (Hle & Hn & Hg). repeat split; [lia | | exact Hg].
        replace (j - i)%nat with (S (j - S i)) by lia. exact Hn.
      - intros (Hlt & Hn & Hg). repeat split; [lia | | exact Hg].
        replace (j - i)%nat with (S (j - S i)) in Hn by lia. exact Hn. }
    destruct (F64.gt (mean1 p) thr) eqn:Hp.
    + cbn [In]. rewrite Htail. split.
      * intros [Heq | (Hlt & Hn & Hg)].
        -- inversion Heq; subst. rewrite Nat.sub_diag. cbn. auto.
        -- repeat split; [lia | exact Hn | exact Hg].
      * intros (Hle & Hn & Hg).
        destruct (Nat.eq_dec i j) as [-> | Hne].
        -- rewrite Nat.sub_diag in Hn. cbn in Hn. inversion Hn. now left.
        -- right. repeat split; [lia | exact Hn | exact Hg].
    + rewrite Htail. split.
      * intros (Hlt & Hn & Hg). repeat split; [lia | exact Hn | exact Hg].
      * intros (Hle & Hn & Hg).
        destruct (Nat.eq_dec i j) as [-> | Hne].
        -- rewrite Nat.sub_diag in Hn. cbn in Hn. inversion Hn; subst.
           congruence.
        -- repeat split; [lia | exact Hn | exact Hg].
Qed.

Lemma flagged_from_sorted (thr : float64) (parts : list (list R)) :
  forall i, StronglySorted lt (map fst (flagged_from thr i parts)).
Proof.
  induction parts as [|p parts IH]; intros i; cbn [flagged_from].
  - constructor.
  - destruct (F64.gt (mean1 p) thr); [|apply IH].
    cbn [map fst]. constructor; [apply IH|].
    apply Forall_forall. intros j Hj.
    apply in_map_iff in Hj. destruct Hj as ([j' s] & <- & Hin).
    apply flagged_from_bound in Hin. cbn. lia.
Qed.

Lemma combine_fst_snd {A B : Type} (l : list (A * B)) :
  combine (map fst l) (map snd l) = l.
Proof.
  induction l as [|[a b] l IH]; cbn; [reflexivity | now rewrite IH].
Qed.

(** The k-th flagged signal is the corpus entry at the k-th flagged
    index. *)
Lemma flagged_from_lookup (thr : float64) (parts : list (list R)) :
  forall i k j,
    nth_error (map fst (flagged_from thr i parts)) k = Some j ->
    exists s, nth_error (map snd (flagged_from thr i parts)) k = Some s
              /\ nth_error parts (j - i) = Some s.
Proof.
  intros i k j Hk.
  rewrite nth_error_map in Hk.
  destruct (nth_error (flagged_from thr i parts) k) as [[j' s]|] eqn:Hn;
    [|discriminate].
  cbn in Hk. inversion Hk; subst j'.
  exists s. rewrite nth_error_map, Hn. split; [reflexivity|].
  apply nth_error_In in Hn. apply flagged_from_In in Hn.
  destruct Hn as (_ & Hn & _). exact Hn.
Qed.

(** The locals of [check_parts] at [return], in closed form. *)
Lemma check_parts_locals_eq (g : globals) (parts : list (list R))
      (envelope : ndarray) :
  let thr := F64.add (np_mean envelope)
               (F64.mul (norm_ppf ((1 + CONFIDENCE_LVL g) / 2))
                        (np_std envelope)) in
  let st := check_parts_locals g parts envelope in
  mean_envelope st = np_mean envelope /\
  std_envelope st = np_std envelope /\
  z st = norm_ppf ((1 + CONFIDENCE_LVL g) / 2) /\
  threshold st = thr /\
  data_bad_parts st = map snd (flagged_from thr 0 parts) /\
  indexes_bad_parts st = map fst (flagged_from thr 0 parts).
Proof.
  cbv zeta. unfold check_parts_locals, enumerate.
  match goal with
  | |- context [fold_left check_step _ ?st0] =>
      destruct (check_loop parts 0 st0) as (Hm & Hs & Hz & Ht & Hd & Hi)
  end.
  rewrite Hm, Hs, Hz, Ht, Hd, Hi. cbn. auto 7.
Qed.

Lemma np_mean_nonempty (E : list R) :
  E <> [] -> np_mean (Array1 E) = Fin (arith_mean E).
Proof.
  intros HE. cbn. rewrite mean1_nonempty by assumption.
  unfold arith_mean. now rewrite np_sum_fold_right.
Qed.

Lemma np_std_population (E : list R) :
  E <> [] -> np_std (Array1 E) = Fin (sqrt (population_variance E)).
Proof.
  intros HE. destruct (var1_nonempty E HE) as (v & Hv & Hpos & Heq).
  cbn. rewrite Hv, f64_sqrt_nonneg by assumption. now rewrite Heq.
Qed.

Lemma gt_nan_r (a : float64) : F64.gt a NaN = false.
Proof. destruct a; reflexivity. Qed.

Lemma flagged_from_nan (parts : list (list R)) :
  forall i, flagged_from NaN i parts = [].
Proof.
  induction parts as [|p parts IH]; intros i; cbn [flagged_from].
  - reflexivity.
  - rewrite gt_nan_r. apply IH.
Qed.

(** ** The threshold classifier *)

(** C1: for every non-empty reference envelope E, [check_parts] uses
    threshold = mean(E) + z * std(E) with z = ppf((1 + confidence)/2),
    returns normally, and its two result lists hold exactly the test
    signals whose mean is strictly greater than the threshold, each
    paired with its position in the test corpus. *)
Theorem check_parts_threshold_rule (g : globals) (parts : list (list R))
        (E : list R) :
  E <> [] ->
  let zq := norm_ppf ((1 + CONFIDENCE_LVL g) / 2) in
  let thr := F64.add (Fin (arith_mean E))
                     (F64.mul zq (Fin (sqrt (population_variance E)))) in
  let st := check_parts_locals g parts (Array1 E) in
  mean_envelope st = Fin (arith_mean E) /\
  std_envelope st = Fin (sqrt (population_variance E)) /\
  z st = zq /\
  threshold st = thr /\
  exists bad idx,
    check_parts g parts (Array1 E) = Ok (bad, idx) /\
    length bad = length idx /\
    forall i s,
      In (i, s) (combine idx bad) <->
      nth_error parts i = Some s /\ F64.gt (np_mean (Array1 s)) thr = true.
Proof.
  intros HE. cbv zeta.
  destruct (check_parts_locals_eq g parts (Array1 E))
    as (Hm & Hs & Hz & Ht & Hd & Hi).
  rewrite np_mean_nonempty, np_std_population in * by assumption.
  repeat (split; [assumption|]).
  unfold check_parts. rewrite Hd, Hi.
  eexists _, _. split; [reflexivity|]. split.
  - now rewrite !length_map.
  - intros i s. rewrite combine_fst_snd, flagged_from_In, Nat.sub_0_r.
    cbn [np_mean]. split.
    + intros (_ & H1 & H2). split; assumption.
    + intros [H1 H2]. repeat split; auto. lia.
Qed.

(** C7: the indices returned by [check_parts] are strictly increasing,
    and the k-th returned signal is the entry of the test corpus at the
    k-th returned index. *)
Theorem check_parts_input_order (g : globals) (parts : list (list R))
        (envelope : ndarray) :
  exists bad idx,
    check_parts g parts envelope = Ok (bad, idx) /\
    StronglySorted lt idx /\
    length bad = length idx /\
    forall k i,
      nth_error idx k = Some i ->
      exists s, nth_error bad k = Some s /\ nth_error parts i = Some s.
Proof.
  destruct (check_parts_locals_eq g parts envelope)
    as (_ & _ & _ & _ & Hd & Hi).
  unfold check_parts. rewrite Hd, Hi.
  eexists _, _. split; [reflexivity|].
  split; [apply flagged_from_sorted|].
  split; [now rewrite !length_map|].
  intros k i Hk. apply flagged_from_lookup in Hk.
  now rewrite Nat.sub_0_r in Hk.
Qed.

(** C10: the deviation in the threshold formula is the population
    standard deviation: for a non-empty envelope E of length N it is a
    non-negative real whose square is 1/N times the sum of the
    (E_i - mean(E))^2. *)
Theorem std_envelope_is_population_std (g : globals)
        (parts : list (list R)) (E : list R) :
  E <> [] ->
  exists sigma,
    std_envelope (check_parts_locals g parts (Array1 E)) = Fin sigma /\
    np_std (Array1 E) = Fin sigma /\
    0 <= sigma /\
    sigma ^ 2 =
      1 / INR (length E)
      * fold_right (fun e acc => (e - arith_mean E) ^ 2 + acc) 0 E.
Proof.
  intros HE.
  destruct (check_parts_locals_eq g parts (Array1 E)) as (_ & Hs & _).
  destruct (np_std_nonempty E HE) as (sigma & Hsig & Hpos & Hsq).
  exists sigma. rewrite Hs. repeat split; try assumption.
  replace (sigma ^ 2) with (sigma * sigma) by ring.
  exact Hsq.
Qed.

(** C5 (as the code behaves): on an empty reference envelope
    [check_parts] raises nothing; mean, deviation and threshold are nan
    and, for every test corpus, no signal is flagged. *)
Theorem check_parts_empty_reference (g : globals) (parts : list (list R)) :
  let st := check_parts_locals g parts (Array1 []) in
  mean_envelope st = NaN /\
  std_envelope st = NaN /\
  threshold st = NaN /\
  check_parts g parts (Array1 []) = Ok ([], []).
Proof.
  cbv zeta.
  destruct (check_parts_locals_eq g parts (Array1 []))
    as (Hm & Hs & _ & Ht & Hd & Hi).
  unfold check_parts. rewrite Hm, Hs, Ht, Hd, Hi. cbn.
  rewrite flagged_from_nan. repeat split; reflexivity.
Qed.

(** *** Confidence level and threshold *)


Lemma add_nan_r (a : float64) : F64.add a NaN = NaN.
Proof. destruct a; reflexivity. Qed.

(** A signal above the higher threshold is above the lower one. *)
Lemma gt_le_trans (a t1 t2 : float64) :
  F64.le t1 t2 = true -> F64.gt a t2 = true -> F64.gt a t1 = true.
Proof.
  destruct a as [a | | |], t1 as [x | | |], t2 as [y | | |]; cbn;
    try discriminate; try reflexivity.
  destruct (Rle_dec x y), (Rlt_dec y a), (Rlt_dec x a);
    try discriminate; try reflexivity; lra.
Qed.





(** ** The envelope trainer *)

Lemma skipn_nth_error {A : Type} (l : list A) :
  forall i a, nth_error l i = Some a -> skipn i l = a :: skipn (S i) l.
Proof.
  induction l as [|x l IH]; intros [|i] a Hn; cbn in Hn; try discriminate.
  - now inversion Hn.
  - cbn [skipn]. now apply IH.
Qed.

(** The loop visits the signals at positions [i], [i+1], ... in stored
    order and never indexes past the end of the corpus. *)
Lemma envelope_loop_firstn (corpus : list (list R)) :
  forall (todo i : nat) (acc : list (list R)),
    (i + todo <= length corpus)%nat ->
    envelope_loop corpus i todo acc =
      (envs <- envelopes_of (firstn todo (skipn i corpus)) ;;
       Ok (acc ++ envs)).
Proof.
  induction todo as [|todo IH]; intros i acc Hlen.
  - cbn. now rewrite app_nil_r.
  - destruct (nth_error corpus i) as [data|] eqn:Hn.
    2:{ apply nth_error_None in Hn. lia. }
    cbn [envelope_loop]. unfold getitem. rewrite Hn.
    rewrite (skipn_nth_error _ _ _ Hn).
    cbn [bind firstn envelopes_of].
    destruct (preprocessing data) as [data_signal | e]; [|reflexivity].
    cbn [bind].
    destruct (create_single_envelope data_signal) as [env | e];
      [|reflexivity].
    cbn [bind]. rewrite IH by lia.
    destruct (envelopes_of (firstn todo (skipn (S i) corpus)))
      as [envs | e]; [|reflexivity].
    cbn [bind]. now rewrite <- app_assoc.
Qed.


(** C8: the threshold of [check_parts] depends on the reference
    envelope and the confidence level only, not on the test corpus nor
    on the rest of the notebook state; the outcome of [train_envelope]
    depends on the training corpus and the requested count only, not on
    the test data. *)
Theorem threshold_and_training_ignore_test_data :
  (forall (g g' : globals) (parts parts' : list (list R))
          (envelope : ndarray),
      CONFIDENCE_LVL g = CONFIDENCE_LVL g' ->
      threshold (check_parts_locals g parts envelope) =
      threshold (check_parts_locals g' parts' envelope)) /\
  (forall (g g' : globals) (n_parts : Z),
      train_data g = train_data g' ->
      train_envelope g n_parts = train_envelope g' n_parts).
Proof.
  split.
  - intros g g' parts parts' envelope Hc.
    destruct (check_parts_locals_eq g parts envelope)
      as (_ & _ & _ & Ht & _).
    destruct (check_parts_locals_eq g' parts' envelope)
      as (_ & _ & _ & Ht' & _).
    now rewrite Ht, Ht', Hc.
  - intros g g' n_parts Hd. unfold train_envelope. now rewrite Hd.
Qed.

(** C3 (as the code behaves): on an empty training corpus
    [train_envelope] raises nothing for any requested count; it returns
    the scalar nan, after the notice when the count is positive. *)
Theorem train_envelope_empty_corpus (g : globals) (n_parts : Z) :
  train_data g = [] ->
  train_envelope g n_parts =
    ((if (0 <? n_parts)%Z then [notice 0] else []), Ok (Scalar NaN)).
Proof.
  intros Hd. unfold train_envelope. rewrite Hd. cbn [length Z.of_nat].
  destruct (0 <? n_parts)%Z eqn:Hn.
  - reflexivity.
  - apply Z.ltb_ge in Hn.
    replace (Z.to_nat n_parts) with 0%nat by lia. reflexivity.
Qed.

(** C9: with at least one training signal, [train_envelope(1)] prints
    nothing and has the outcome of [create_single_envelope] on the
    preprocessed first signal: the same envelope, value for value. *)
Theorem train_envelope_single (g : globals) (s : list R)
        (rest : list (list R)) :
  train_data g = s :: rest ->
  train_envelope g 1 =
    ([], data_signal <- preprocessing s ;;
         env <- create_single_envelope data_signal ;;
         Ok (Array1 env)).
Proof.
  intros Hd. unfold train_envelope. rewrite Hd.
  replace (Z.of_nat (length (s :: rest)) <? 1)%Z with false
    by (symmetry; apply Z.ltb_ge; cbn [length]; lia).
  f_equal. change (Z.to_nat 1) with 1%nat.
  cbn [envelope_loop getitem nth_error bind].
  destruct (preprocessing s) as [data_signal | e]; [|reflexivity].
  cbn [bind].
  destruct (create_single_envelope data_signal) as [env | e]; [|reflexivity].
  cbn. do 2 f_equal.
  rewrite <- (map_id env) at 2. apply map_ext. intros a. lra.
Qed.

(** ** The bandpass filter *)

(** C4: [bandpass_filter] raises (scipy's [ValueError]) and returns no
    signal when the lower cutoff is not below the upper one, when the
    upper cutoff is not below the Nyquist frequency, or when the signal
    is not longer than the padding that the designed filter needs. *)
Theorem bandpass_filter_invalid (data : list R) (lowcut highcut : R)
        (order : nat) :
  highcut <= lowcut \/
  sampling_rate / 2 <= highcut \/
  (exists b a, butter order lowcut highcut sampling_rate = Ok (b, a) /\
               (length data <= padlen b a)%nat) ->
  bandpass_filter data lowcut highcut order = Raise ValueError.
Proof.
  unfold bandpass_filter, sampling_rate.
  intros [Hbad | [Hbad | (b & a & Hb & Hshort)]].
  - unfold butter.
    destruct (Rle_dec _ _); [reflexivity|].
    destruct (Rle_dec _ _); [reflexivity|].
    destruct (Rlt_dec _ _); [lra | reflexivity].
  - unfold butter.
    destruct (Rle_dec _ _); [reflexivity|].
    destruct (Rle_dec _ _); [reflexivity|].
    destruct (Rlt_dec _ _); [|reflexivity].
    destruct (Rle_dec _ _); [reflexivity|].
    destruct (Rle_dec _ _); [reflexivity | lra].
  - rewrite Hb. cbn [bind]. unfold filtfilt.
    apply Nat.leb_le in Hshort. now rewrite Hshort.
Qed.

(** ** Further properties of the envelope trainer *)

(** For every requested count the trainer averages the envelopes of the
    first [n_parts] stored signals, all of them when there are fewer. *)
Lemma train_envelope_closed_form (g : globals) (n_parts : Z) :
  train_envelope g n_parts =
    ((if (Z.of_nat (length (train_data g)) <? n_parts)%Z
      then [notice (length (train_data g))] else []),
     single_envelopes <-
       envelopes_of (firstn (Z.to_nat n_parts) (train_data g)) ;;
     np_mean_axis0 single_envelopes).
Proof.
  unfold train_envelope.
  destruct (Z.of_nat (length (train_data g)) <? n_parts)%Z eqn:Hcmp.
  - apply Z.ltb_lt in Hcmp. f_equal.
    rewrite Nat2Z.id, envelope_loop_firstn by (cbn; lia).
    cbn [skipn]. rewrite firstn_all, firstn_all2 by lia.
    destruct (envelopes_of (train_data g)); reflexivity.
  - apply Z.ltb_ge in Hcmp. f_equal.
    rewrite envelope_loop_firstn by (cbn; lia).
    cbn [skipn].
    destruct (envelopes_of (firstn (Z.to_nat n_parts) (train_data g)));
      reflexivity.
Qed.

(** X1: signals stored after the first [n_parts] never influence the
    result: two notebook states whose training corpora hold at least
    [n_parts] signals and agree on the first [n_parts] give the same
    output and the same envelope or exception. *)
Theorem train_envelope_prefix (g1 g2 : globals) (n_parts : Z) :
  (n_parts <= Z.of_nat (length (train_data g1)))%Z ->
  (n_parts <= Z.of_nat (length (train_data g2)))%Z ->
  firstn (Z.to_nat n_parts) (train_data g1) =
  firstn (Z.to_nat n_parts) (train_data g2) ->
  train_envelope g1 n_parts = train_envelope g2 n_parts.
Proof.
  intros H1 H2 Hpre. rewrite !train_envelope_closed_form, Hpre.
  apply Z.ltb_ge in H1. apply Z.ltb_ge in H2. now rewrite H1, H2.
Qed.

(** X2: a requested count of zero or less is not rejected: the loop does
    not run, nothing is printed and the scalar nan is returned, whatever
    the training corpus holds. *)
Theorem train_envelope_nonpositive (g : globals) (n_parts : Z) :
  (n_parts <= 0)%Z ->
  train_envelope g n_parts = ([], Ok (Scalar NaN)).
Proof.
  intros Hn. rewrite train_envelope_closed_form.
  replace (Z.to_nat n_parts) with 0%nat by lia.
  replace (Z.of_nat (length (train_data g)) <? n_parts)%Z with false
    by (symmetry; apply Z.ltb_ge; lia).
  reflexivity.
Qed.

(** *** Elementwise mean *)

Lemma add_rows_length (r1 r2 : list R) :
  length r1 = length r2 -> length (add_rows r1 r2) = length r1.
Proof.
  revert r2. induction r1 as [|x r1 IH]; intros [|y r2] Hlen;
    cbn in *; try discriminate; [reflexivity|].
  f_equal. apply IH. lia.
Qed.

Lemma add_rows_nth (r1 r2 : list R) (k : nat) :
  length r1 = length r2 ->
  nth k (add_rows r1 r2) 0 = nth k r1 0 + nth k r2 0.
Proof.
  revert r2 k. induction r1 as [|x r1 IH]; intros [|y r2] k Hlen;
    cbn in Hlen; try discriminate.
  - destruct k; cbn; lra.
  - destruct k; cbn [add_rows nth]; [reflexivity|]. apply IH. lia.
Qed.

Lemma fold_add_rows (rest : list (list R)) :
  forall r,
    Forall (fun r' => length r' = length r) rest ->
    length (fold_left add_rows rest r) = length r /\
    forall k, nth k (fold_left add_rows rest r) 0 = nth k r 0 + col_sum k rest.
Proof.
  induction rest as [|r' rest IH]; intros r Hall; cbn [fold_left col_sum fold_right].
  - split; [reflexivity | intros k; lra].
  - inversion Hall as [|? ? Hr' Hrest]; subst.
    assert (Hlen : length (add_rows r r') = length r)
      by (apply add_rows_length; congruence).
    destruct (IH (add_rows r r')) as [IHlen IHnth].
    { eapply Forall_impl; [|exact Hrest]. cbn. intros; congruence. }
    split; [congruence|].
    intros k. rewrite IHnth, add_rows_nth by congruence.
    unfold col_sum. lra.
Qed.

Lemma same_length_check (r : list R) (rest : list (list R)) :
  forallb (fun r' => Nat.eqb (length r') (length r)) rest = true <->
  uniform (r :: rest).
Proof.
  rewrite forallb_forall. split.
  - intros Hall r1 r2 H1 H2.
    assert (Hr : forall x, In x (r :: rest) -> length x = length r).
    { intros x [<- | Hx]; [reflexivity|]. apply Nat.eqb_eq. now apply Hall. }
    rewrite (Hr r1 H1), (Hr r2 H2). reflexivity.
  - intros Hu x Hx. apply Nat.eqb_eq. apply Hu; cbn; auto.
Qed.

(** What [np.mean(rows, axis=0)] returns or raises, case by case. *)
Lemma np_mean_axis0_cases (rws : list (list R)) :
  (rws = [] /\ np_mean_axis0 rws = Ok (Scalar NaN)) \/
  (rws <> [] /\ ~ uniform rws /\ np_mean_axis0 rws = Raise ValueError) \/
  (rws <> [] /\ uniform rws /\
   exists E, np_mean_axis0 rws = Ok (Array1 E) /\
             Forall (fun r => length r = length E) rws /\
             forall k, nth k E 0 = col_sum k rws / INR (length rws)).
Proof.
  destruct rws as [|r rest]; [left; split; reflexivity|].
  right. unfold np_mean_axis0.
  destruct (forallb _ rest) eqn:Hchk.
  - right. apply same_length_check in Hchk.
    split; [discriminate|]. split; [exact Hchk|].
    eexists. split; [reflexivity|].
    assert (Hall : Forall (fun r' => length r' = length r) rest).
    { apply Forall_forall. intros x Hx. apply Hchk; cbn; auto. }
    destruct (fold_add_rows rest r Hall) as [Hlen Hnth].
    split.
    + rewrite length_map, Hlen. constructor; [reflexivity | exact Hall].
    + intros k.
      set (f := fun s : R => s / INR (length (r :: rest))).
      replace 0 with (f 0) at 1 by (unfold f, Rdiv; ring).
      rewrite map_nth. unfold f. rewrite Hnth. reflexivity.
  - left. split; [discriminate|]. split; [|reflexivity].
    intros Hu. apply same_length_check in Hu. congruence.
Qed.

(** X3: envelopes of differing lengths are not padded, cut or
    broadcast: as soon as two of the envelopes to average differ in
    length the trainer raises [ValueError]. *)
Theorem train_envelope_length_mismatch (g : globals) (n_parts : Z)
        (envs : list (list R)) (e1 e2 : list R) :
  envelopes_of (firstn (Z.to_nat n_parts) (train_data g)) = Ok envs ->
  In e1 envs -> In e2 envs -> length e1 <> length e2 ->
  snd (train_envelope g n_parts) = Raise ValueError.
Proof.
  intros Henvs H1 H2 Hne. rewrite train_envelope_closed_form.
  cbn [snd]. rewrite Henvs. cbn [bind].
  destruct (np_mean_axis0_cases envs)
    as [[-> _] | [(_ & _ & Hraise) | (_ & Hu & _)]].
  - destruct H1.
  - exact Hraise.
  - exfalso. apply Hne. now apply Hu.
Qed.

(** X4: when the trainer returns an array, it is the elementwise
    arithmetic mean of the envelopes of the first [n_parts] signals: they
    all have its length, and its k-th value is the sum of their k-th
    values divided by their number. *)
Theorem train_envelope_elementwise_mean (g : globals) (n_parts : Z)
        (E : list R) :
  snd (train_envelope g n_parts) = Ok (Array1 E) ->
  exists envs,
    envelopes_of (firstn (Z.to_nat n_parts) (train_data g)) = Ok envs /\
    envs <> [] /\
    Forall (fun env => length env = length E) envs /\
    forall k, (k < length E)%nat ->
              nth k E 0 = col_sum k envs / INR (length envs).
Proof.
  rewrite train_envelope_closed_form. cbn [snd].
  destruct (envelopes_of _) as [envs | e]; cbn [bind]; [|discriminate].
  intros Hmean. exists envs. split; [reflexivity|].
  destruct (np_mean_axis0_cases envs)
    as [[_ Hnan] | [(_ & _ & Hraise) | (Hne & _ & E' & HE' & Hlen & Hnth)]];
    try congruence.
  assert (E' = E) by congruence. subst E'.
  repeat split; auto.
Qed.

(** *** Unprocessable signals, sign *)

Lemma envelopes_of_cons (data : list R) (signals envs : list (list R)) :
  envelopes_of (data :: signals) = Ok envs <->
  exists data_signal env envs',
    preprocessing data = Ok data_signal /\
    create_single_envelope data_signal = Ok env /\
    envelopes_of signals = Ok envs' /\
    envs = env :: envs'.
Proof.
  cbn [envelopes_of]. split.
  - destruct (preprocessing data) as [data_signal|] eqn:Hp; cbn [bind];
      [|discriminate].
    destruct (create_single_envelope data_signal) as [env|] eqn:Hc;
      cbn [bind]; [|discriminate].
    destruct (envelopes_of signals) as [envs'|] eqn:Hr; cbn [bind];
      [|discriminate].
    intros Heq. inversion Heq. exists data_signal, env, envs'. auto.
  - intros (data_signal & env & envs' & Hp & Hc & Hr & ->).
    rewrite Hp. cbn [bind]. rewrite Hc. cbn [bind]. now rewrite Hr.
Qed.

Lemma envelopes_of_raises (signals : list (list R)) (data : list R) :
  In data signals -> raises (preprocessing data) ->
  raises (envelopes_of signals).
Proof.
  intros Hin [e He].
  induction signals as [|x signals IH]; [destruct Hin|].
  cbn [envelopes_of].
  destruct (preprocessing x) as [sig | e1] eqn:Hx; [|now exists e1].
  cbn [bind].
  destruct (create_single_envelope sig) as [env | e2]; [|now exists e2].
  cbn [bind].
  destruct Hin as [-> | Hin]; [congruence|].
  destruct (IH Hin) as [e3 ->]. now exists e3.
Qed.

(** C6 (as the code behaves): with a corpus of N signals and a requested
    count n > N, [train_envelope] prints the notice and then has the
    outcome of the call with n = N, which prints nothing: the loop runs
    over the N signals of the corpus and reads none past its end.  It
    returns, with the same reference envelope as for n = N, when the
    pipeline accepts every signal and the envelopes have one length; it
    raises when preprocessing raises on a signal of the corpus. *)
Theorem train_envelope_clamps (g : globals) (n_parts : Z) :
  (Z.of_nat (length (train_data g)) < n_parts)%Z ->
  let n_files := length (train_data g) in
  fst (train_envelope g n_parts) = [notice n_files] /\
  fst (train_envelope g (Z.of_nat n_files)) = [] /\
  snd (train_envelope g n_parts) = snd (train_envelope g (Z.of_nat n_files)) /\
  snd (train_envelope g n_parts) =
    (single_envelopes <- envelopes_of (train_data g) ;;
     np_mean_axis0 single_envelopes) /\
  (forall envs,
      envelopes_of (train_data g) = Ok envs -> uniform envs ->
      exists envelope,
        snd (train_envelope g n_parts) = Ok envelope /\
        snd (train_envelope g (Z.of_nat n_files)) = Ok envelope) /\
  (forall data,
      In data (train_data g) -> raises (preprocessing data) ->
      raises (snd (train_envelope g n_parts))).
Proof.
  intros Hlt. cbv zeta.
  assert (Hrun : snd (train_envelope g n_parts) =
                 (single_envelopes <- envelopes_of (train_data g) ;;
                  np_mean_axis0 single_envelopes)).
  { rewrite train_envelope_closed_form. cbn [snd].
    now rewrite firstn_all2 by lia. }
  assert (Hsame : snd (train_envelope g n_parts) =
                  snd (train_envelope g (Z.of_nat (length (train_data g))))).
  { rewrite Hrun, train_envelope_closed_form. cbn [snd].
    now rewrite Nat2Z.id, firstn_all. }
  assert (Hout : fst (train_envelope g n_parts) =
                 [notice (length (train_data g))]).
  { rewrite train_envelope_closed_form. cbn [fst].
    apply Z.ltb_lt in Hlt. now rewrite Hlt. }
  assert (Hquiet : fst (train_envelope g (Z.of_nat (length (train_data g))))
                   = []).
  { rewrite train_envelope_closed_form. cbn [fst]. now rewrite Z.ltb_irrefl. }
  repeat split; auto.
  - intros envs Henvs Hu. rewrite <- Hsame, Hrun, Henvs. cbn [bind].
    destruct (np_mean_axis0_cases envs)
      as [[_ Hnan] | [(_ & Hnu & _) | (_ & _ & E & HE & _)]].
    + eauto.
    + now destruct Hnu.
    + eauto.
  - intros data Hin Hbad. rewrite Hrun.
    destruct (envelopes_of_raises _ _ Hin Hbad) as [e ->]. now exists e.
Qed.

(** X6: no training signal is skipped: if preprocessing raises on one of
    the first [n_parts] stored signals, the trainer raises and returns
    no envelope. *)
Theorem train_envelope_bad_signal (g : globals) (n_parts : Z)
        (data : list R) :
  In data (firstn (Z.to_nat n_parts) (train_data g)) ->
  raises (preprocessing data) ->
  raises (snd (train_envelope g n_parts)).
Proof.
  intros Hin Hbad. rewrite train_envelope_closed_form. cbn [snd].
  destruct (envelopes_of_raises _ _ Hin Hbad) as [e ->]. now exists e.
Qed.

Lemma Cabs_nonneg (c : complex) : 0 <= Cabs c.
Proof. apply sqrt_pos. Qed.

Lemma create_single_envelope_nonneg (x env : list R) :
  create_single_envelope x = Ok env -> Forall (fun v => 0 <= v) env.
Proof.
  unfold create_single_envelope.
  destruct (hilbert x) as [cs|]; cbn [bind]; [|discriminate].
  intros Heq. inversion Heq. unfold np_abs.
  apply Forall_forall. intros v Hv. apply in_map_iff in Hv.
  destruct Hv as (c & <- & _). apply Cabs_nonneg.
Qed.

Lemma envelopes_of_nonneg (signals : list (list R)) :
  forall envs, envelopes_of signals = Ok envs ->
               Forall (Forall (fun v => 0 <= v)) envs.
Proof.
  induction signals as [|x signals IH]; intros envs Henvs.
  - inversion Henvs. constructor.
  - apply envelopes_of_cons in Henvs.
    destruct Henvs as (sig & env & envs' & _ & Hc & Hrest & ->).
    constructor; [eapply create_single_envelope_nonneg; eauto | auto].
Qed.

Lemma col_sum_nonneg (k : nat) (rws : list (list R)) :
  Forall (Forall (fun v => 0 <= v)) rws -> 0 <= col_sum k rws.
Proof.
  unfold col_sum. induction 1 as [|row rws Hrow Hrws IH]; cbn [fold_right].
  - lra.
  - assert (0 <= nth k row 0).
    { destruct (Nat.lt_ge_cases k (length row)) as [Hk | Hk].
      - now apply Forall_nth.
      - rewrite nth_overflow by assumption. lra. }
    lra.
Qed.

(** X7: a reference envelope returned by the trainer has no negative
    value. *)
Theorem train_envelope_nonneg (g : globals) (n_parts : Z) (E : list R) :
  snd (train_envelope g n_parts) = Ok (Array1 E) ->
  Forall (fun v => 0 <= v) E.
Proof.
  rewrite train_envelope_closed_form. cbn [snd].
  destruct (envelopes_of _) as [envs | e] eqn:Henvs; cbn [bind];
    [|discriminate].
  intros Hmean. apply envelopes_of_nonneg in Henvs.
  destruct (np_mean_axis0_cases envs)
    as [[_ Hnan] | [(_ & _ & Hraise) | (Hne & _ & E' & HE' & _ & Hnth)]];
    try congruence.
  assert (E' = E) by congruence. subst E'.
  apply Forall_nth. intros k d Hk. rewrite (nth_indep _ d 0 Hk), Hnth.
  apply Rmult_le_pos; [now apply col_sum_nonneg|].
  left. apply Rinv_0_lt_compat. apply lt_0_INR.
  destruct envs; [congruence | cbn; lia].
Qed.

(** ** Further properties of the filter and of the envelope extractor *)

(** What a returned preprocessed signal tells about the call. *)
Lemma preprocessing_inv (data sig : list R) :
  preprocessing data = Ok sig ->
  exists b a filtered,
    butter_kernel 4 (2 * 1000 / sampling_rate) (2 * 10000 / sampling_rate)
      = Ok (b, a) /\
    (3 * Nat.max (length a) (length b) < length data)%nat /\
    filtfilt_kernel b a data = Ok filtered /\
    sig = map Rabs filtered.
Proof.
  unfold preprocessing, np_absolute, bandpass_filter, butter, sampling_rate.
  decide_reals.
  destruct (butter_kernel 4 _ _) as [[b a] | e]; cbn [bind];
    [|discriminate].
  unfold filtfilt, padlen.
  destruct (Nat.leb (length data) (3 * Nat.max (length a) (length b)))
    eqn:Hlen; cbn [bind]; [discriminate|].
  apply Nat.leb_gt in Hlen.
  destruct (filtfilt_kernel b a data) as [filtered | e] eqn:Hk;
    cbn [bind]; [|discriminate].
  intros Heq. inversion Heq. exists b, a, filtered. auto.
Qed.

(** X9: [preprocessing] returns exactly when the filter design for the
    band 1000-10000 Hz at order 4 succeeds, the signal is longer than
    three times the number of filter taps and the filtering returns; its
    result is then the absolute value of the filtered signal. *)
Theorem preprocessing_returns (data sig : list R) :
  preprocessing data = Ok sig <->
  exists b a filtered,
    butter_kernel 4 (2 * 1000 / sampling_rate) (2 * 10000 / sampling_rate)
      = Ok (b, a) /\
    (3 * Nat.max (length a) (length b) < length data)%nat /\
    filtfilt_kernel b a data = Ok filtered /\
    sig = map Rabs filtered.
Proof.
  split; [apply preprocessing_inv|].
  intros (b & a & filtered & Hdesign & Hlong & Hfilt & ->).
  unfold preprocessing, np_absolute, bandpass_filter, butter.
  unfold sampling_rate in *. decide_reals.
  rewrite Hdesign. cbn [bind]. unfold filtfilt, padlen.
  apply Nat.leb_gt in Hlong. rewrite Hlong, Hfilt. reflexivity.
Qed.

(** X10: whatever the library kernels do, [preprocessing] never returns
    for an empty signal, and a signal it returns has no negative
    sample. *)
Theorem preprocessing_nonempty_nonneg :
  raises (preprocessing []) /\
  forall data sig,
    preprocessing data = Ok sig ->
    data <> [] /\ Forall (fun v => 0 <= v) sig.
Proof.
  assert (Hret : forall data sig,
             preprocessing data = Ok sig ->
             data <> [] /\ Forall (fun v => 0 <= v) sig).
  { intros data sig Hp. apply preprocessing_inv in Hp.
    destruct Hp as (b & a & filtered & _ & Hlong & _ & ->). split.
    - intros ->. cbn in Hlong. lia.
    - apply Forall_forall. intros v Hv. apply in_map_iff in Hv.
      destruct Hv as (x & <- & _). apply Rabs_pos. }
  split; [|exact Hret].
  destruct (preprocessing []) as [sig | e] eqn:Hp; [|now exists e].
  destruct (Hret _ _ Hp) as [Hne _]. congruence.
Qed.

Lemma Cabs_bounds (c : complex) :
  Rabs (re c) <= Cabs c /\ Rabs (im c) <= Cabs c /\
  (Cabs c = 0 <-> re c = 0 /\ im c = 0).
Proof.
  unfold Cabs.
  assert (Hre : 0 <= re c * re c) by nra.
  assert (Him : 0 <= im c * im c) by nra.
  repeat split.
  - rewrite <- sqrt_Rsqr_abs. apply sqrt_le_1_alt. unfold Rsqr. lra.
  - rewrite <- sqrt_Rsqr_abs. apply sqrt_le_1_alt. unfold Rsqr. lra.
  - apply sqrt_eq_0 in H; nra.
  - apply sqrt_eq_0 in H; nra.
  - intros [-> ->]. replace (0 * 0 + 0 * 0) with 0 by ring. apply sqrt_0.
Qed.

(** X11: the envelope has one value per sample of the analytic signal;
    each value is at least the magnitude of the real part and of the
    imaginary part of that sample, and is zero exactly where the
    analytic signal is zero. *)
Theorem create_single_envelope_magnitude (input_signal env : list R) :
  create_single_envelope input_signal = Ok env ->
  exists analytic,
    hilbert input_signal = Ok analytic /\
    length env = length analytic /\
    forall k c,
      nth_error analytic k = Some c ->
      exists v, nth_error env k = Some v /\
                Rabs (re c) <= v /\ Rabs (im c) <= v /\
                (v = 0 <-> re c = 0 /\ im c = 0).
Proof.
  unfold create_single_envelope.
  destruct (hilbert input_signal) as [analytic | e]; cbn [bind];
    [|discriminate].
  intros Heq. inversion Heq. exists analytic.
  split; [reflexivity|]. unfold np_abs. split; [apply length_map|].
  intros k c Hk. exists (Cabs c).
  rewrite nth_error_map, Hk. split; [reflexivity|]. apply Cabs_bounds.
Qed.

(** ** Further properties of the classifier *)

Lemma flagged_from_length (thr : float64) (parts : list (list R)) :
  forall i, (length (flagged_from thr i parts) <= length parts)%nat.
Proof.
  induction parts as [|p parts IH]; intros i; cbn [flagged_from length].
  - lia.
  - specialize (IH (S i)). destruct (F64.gt (mean1 p) thr); cbn [length]; lia.
Qed.

Lemma flagged_from_NoDup (thr : float64) (parts : list (list R)) :
  forall i, NoDup (map fst (flagged_from thr i parts)).
Proof.
  induction parts as [|p parts IH]; intros i; cbn [flagged_from].
  - constructor.
  - destruct (F64.gt (mean1 p) thr); [|apply IH].
    cbn [map fst]. constructor; [|apply IH].
    intros Hin. apply in_map_iff in Hin.
    destruct Hin as ([j s] & Hj & Hin). cbn in Hj. subst j.
    apply flagged_from_bound in Hin. lia.
Qed.

(** X12: the classifier reports positions of the test corpus and entries
    of the test corpus only: every returned index is below the corpus
    size, no index is returned twice, every returned signal is an entry
    of the corpus, and at most as many signals are flagged as there are
    test signals. *)
Theorem check_parts_bounds (g : globals) (parts : list (list R))
        (envelope : ndarray) :
  exists bad idx,
    check_parts g parts envelope = Ok (bad, idx) /\
    Forall (fun i => (i < length parts)%nat) idx /\
    NoDup idx /\
    Forall (fun s => In s parts) bad /\
    (length idx <= length parts)%nat.
Proof.
  destruct (check_parts_locals_eq g parts envelope)
    as (_ & _ & _ & _ & Hd & Hi).
  unfold check_parts. rewrite Hd, Hi.
  eexists _, _. split; [reflexivity|]. repeat split.
  - apply Forall_forall. intros i Hin. apply in_map_iff in Hin.
    destruct Hin as ([j s] & Hj & Hin). cbn in Hj. subst j.
    apply flagged_from_In in Hin. destruct Hin as (_ & Hn & _).
    rewrite Nat.sub_0_r in Hn. apply nth_error_Some. congruence.
  - apply flagged_from_NoDup.
  - apply Forall_forall. intros s Hin. apply in_map_iff in Hin.
    destruct Hin as ([j s'] & Hs & Hin). cbn in Hs. subst s'.
    apply flagged_from_In in Hin. destruct Hin as (_ & Hn & _).
    eapply nth_error_In; eauto.
  - rewrite length_map. apply flagged_from_length.
Qed.

Lemma flagged_from_shift (thr : float64) (parts : list (list R)) (k : nat) :
  forall i,
    flagged_from thr (k + i) parts =
    map (fun js => (k + fst js, snd js)%nat) (flagged_from thr i parts).
Proof.
  induction parts as [|p parts IH]; intros i; cbn [flagged_from].
  - reflexivity.
  - rewrite plus_n_Sm, IH.
    destruct (F64.gt (mean1 p) thr); reflexivity.
Qed.

Lemma flagged_from_app (thr : float64) (A B : list (list R)) :
  forall i,
    flagged_from thr i (A ++ B) =
    flagged_from thr i A ++ flagged_from thr (length A + i) B.
Proof.
  induction A as [|p A IH]; intros i; cbn [flagged_from app length].
  - reflexivity.
  - rewrite IH, <- plus_n_Sm. cbn [Nat.add].
    destruct (F64.gt (mean1 p) thr); reflexivity.
Qed.

(** X13: signals are classified independently of one another: the
    result on a concatenated corpus is the result on the first part
    followed by the result on the second part, with the indices of the
    second part shifted by the size of the first. *)
Theorem check_parts_app (g : globals) (A B : list (list R))
        (envelope : ndarray) :
  exists badA idxA badB idxB,
    check_parts g A envelope = Ok (badA, idxA) /\
    check_parts g B envelope = Ok (badB, idxB) /\
    check_parts g (A ++ B) envelope =
      Ok (badA ++ badB, idxA ++ map (fun i => (length A + i)%nat) idxB).
Proof.
  destruct (check_parts_locals_eq g A envelope)
    as (_ & _ & _ & _ & HdA & HiA).
  destruct (check_parts_locals_eq g B envelope)
    as (_ & _ & _ & _ & HdB & HiB).
  destruct (check_parts_locals_eq g (A ++ B) envelope)
    as (_ & _ & _ & _ & Hd & Hi).
  unfold check_parts. rewrite HdA, HiA, HdB, HiB, Hd, Hi.
  eexists _, _, _, _. split; [reflexivity|]. split; [reflexivity|].
  rewrite flagged_from_app, flagged_from_shift, !map_app, !map_map.
  cbn [fst snd]. reflexivity.
Qed.

Lemma mul_nan_r (a : float64) : F64.mul a NaN = NaN.
Proof. destruct a; reflexivity. Qed.

(** X14: a reference whose mean or deviation is nan disables the
    detector without any error: the threshold is nan and no test signal
    is flagged.  This is the case of the scalar nan that the trainer
    returns for an empty corpus and of any infinite scalar. *)
Theorem check_parts_nan_reference (g : globals) (parts : list (list R))
        (envelope : ndarray) :
  np_mean envelope = NaN \/ np_std envelope = NaN ->
  threshold (check_parts_locals g parts envelope) = NaN /\
  check_parts g parts envelope = Ok ([], []).
Proof.
  intros Hnan.
  destruct (check_parts_locals_eq g parts envelope)
    as (_ & _ & _ & Ht & Hd & Hi).
  unfold check_parts. rewrite Hd, Hi, Ht.
  assert (Hthr : F64.add (np_mean envelope)
                   (F64.mul (norm_ppf ((1 + CONFIDENCE_LVL g) / 2))
                            (np_std envelope)) = NaN).
  { destruct Hnan as [-> | ->]; [reflexivity|].
    now rewrite mul_nan_r, add_nan_r. }
  rewrite Hthr, flagged_from_nan. split; reflexivity.
Qed.

(** X15: an empty test signal has mean nan and is never flagged,
    whatever the threshold. *)
Theorem check_parts_empty_signal (g : globals) (parts : list (list R))
        (envelope : ndarray) :
  exists bad idx,
    check_parts g parts envelope = Ok (bad, idx) /\
    ~ In [] bad /\
    forall i, nth_error parts i = Some [] -> ~ In i idx.
Proof.
  destruct (check_parts_locals_eq g parts envelope)
    as (_ & _ & _ & _ & Hd & Hi).
  unfold check_parts. rewrite Hd, Hi.
  eexists _, _. split; [reflexivity|]. split.
  - intros Hin. apply in_map_iff in Hin.
    destruct Hin as ([j s] & Hs & Hin). cbn in Hs. subst s.
    apply flagged_from_In in Hin. destruct Hin as (_ & _ & Hg).
    cbn in Hg. discriminate.
  - intros i Hn Hin. apply in_map_iff in Hin.
    destruct Hin as ([j s] & Hj & Hin). cbn in Hj. subst j.
    apply flagged_from_In in Hin. destruct Hin as (_ & Hn' & Hg).
    rewrite Nat.sub_0_r in Hn'. assert (s = []) by congruence. subst s.
    cbn in Hg. discriminate.
Qed.

Lemma arith_mean_const (c : R) (E : list R) :
  E <> [] -> Forall (fun v => v = c) E -> arith_mean E = c.
Proof.
  intros HE Hall. unfold arith_mean.
  assert (Hsum : fold_right Rplus 0 E = INR (length E) * c).
  { clear HE. induction Hall as [|v E Hv _ IH].
    - cbn. lra.
    - cbn [fold_right]. rewrite IH. subst v.
      change (length (c :: E)) with (S (length E)). rewrite S_INR. lra. }
  rewrite Hsum. destruct E as [|e E]; [congruence|].
  pose proof (INR_length_pos e E). field. lra.
Qed.

Lemma population_variance_const (c : R) (E : list R) :
  E <> [] -> Forall (fun v => v = c) E -> population_variance E = 0.
Proof.
  intros HE Hall. unfold population_variance.
  rewrite (arith_mean_const c E HE Hall).
  assert (Hsum : fold_right (fun e acc => (e - c) ^ 2 + acc) 0 E = 0).
  { clear HE. induction Hall as [|v E Hv _ IH]; cbn [fold_right].
    - reflexivity.
    - rewrite IH. subst v. ring. }
  rewrite Hsum. ring.
Qed.

(** X17: with a non-negative quantile the threshold is not below the
    mean of a non-empty reference envelope, so a test signal whose mean
    does not exceed that mean is never flagged. *)
Theorem check_parts_spares_quiet_signals (g : globals)
        (parts : list (list R)) (E : list R) (zq : R) :
  E <> [] ->
  norm_ppf ((1 + CONFIDENCE_LVL g) / 2) = Fin zq -> 0 <= zq ->
  exists bad idx,
    check_parts g parts (Array1 E) = Ok (bad, idx) /\
    F64.le (Fin (arith_mean E))
           (threshold (check_parts_locals g parts (Array1 E))) = true /\
    forall i s,
      nth_error parts i = Some s ->
      F64.gt (mean1 s) (Fin (arith_mean E)) = false ->
      ~ In i idx.
Proof.
  intros HE Hz Hpos.
  destruct (check_parts_locals_eq g parts (Array1 E))
    as (_ & _ & _ & Ht & Hd & Hi).
  unfold check_parts. rewrite Hd, Hi, Ht.
  rewrite np_mean_nonempty, np_std_population, Hz by assumption.
  cbn [F64.add F64.mul].
  pose proof (sqrt_pos (population_variance E)) as Hsig.
  set (thr := arith_mean E + zq * sqrt (population_variance E)).
  assert (Hthr : arith_mean E <= thr) by (unfold thr; nra).
  eexists _, _. split; [reflexivity|]. split.
  - cbn. destruct (Rle_dec (arith_mean E) thr); [reflexivity | lra].
  - intros i s Hn Hquiet Hin. apply in_map_iff in Hin.
    destruct Hin as ([j s'] & Hj & Hin). cbn in Hj. subst j.
    apply flagged_from_In in Hin. destruct Hin as (_ & Hn' & Hg).
    rewrite Nat.sub_0_r in Hn'. assert (s' = s) by congruence. subst s'.
    rewrite (gt_le_trans (mean1 s) (Fin (arith_mean E)) (Fin thr)) in Hquiet;
      [discriminate | | exact Hg].
    cbn. destruct (Rle_dec (arith_mean E) thr); [reflexivity | lra].
Qed.

(** ** The last cell *)

Lemma test_loop_inv (todo : list (list R)) :
  forall acc parts,
    test_loop todo acc = Ok parts ->
    exists ps, parts = acc ++ ps /\
               Forall2 (fun data p => preprocessing data = Ok p) todo ps.
Proof.
  induction todo as [|data todo IH]; intros acc parts Hloop;
    cbn [test_loop] in Hloop.
  - inversion Hloop. exists []. split; [now rewrite app_nil_r | constructor].
  - destruct (preprocessing data) as [p | e] eqn:Hp; cbn [bind] in Hloop;
      [|discriminate].
    destruct (IH _ _ Hloop) as (ps & -> & Hall).
    exists (p :: ps). split; [now rewrite <- app_assoc|].
    now constructor.
Qed.

Lemma test_loop_ok (todo : list (list R)) :
  forall acc,
    Forall (fun data => exists p, preprocessing data = Ok p) todo ->
    exists parts, test_loop todo acc = Ok parts.
Proof.
  induction todo as [|data todo IH]; intros acc Hall; cbn [test_loop].
  - now exists acc.
  - inversion Hall as [|? ? [p Hp] Hrest]; subst.
    rewrite Hp. cbn [bind]. now apply IH.
Qed.

Lemma test_loop_raises (todo : list (list R)) (data : list R) :
  forall acc,
    In data todo -> raises (preprocessing data) ->
    raises (test_loop todo acc).
Proof.
  induction todo as [|x todo IH]; intros acc Hin Hbad; [destruct Hin|].
  cbn [test_loop].
  destruct (preprocessing x) as [p | e] eqn:Hx; [|now exists e].
  cbn [bind]. destruct Hin as [-> | Hin].
  - destruct Hbad as [e He]. congruence.
  - now apply IH.
Qed.

Lemma Forall2_lookup_r {A B : Type} (P : A -> B -> Prop)
      (l1 : list A) (l2 : list B) :
  Forall2 P l1 l2 ->
  forall i b, nth_error l2 i = Some b ->
              exists a, nth_error l1 i = Some a /\ P a b.
Proof.
  induction 1 as [|a0 b0 l1 l2 Hab _ IH]; intros [|i] b Hn; cbn in Hn;
    try discriminate.
  - inversion Hn; subst. exists a0. split; [reflexivity | exact Hab].
  - apply IH. exact Hn.
Qed.

(** X18: an empty training corpus does not stop the notebook: when every
    test signal can be preprocessed, the last cell prints the notice and
    then reports zero bad parts, whatever the test signals are. *)
Theorem main_cell_untrained (g : globals) :
  train_data g = [] ->
  Forall (fun data => exists p, preprocessing data = Ok p) (test_data g) ->
  main_cell g =
    (["Only 0 files in directory!"%string;
      "0 bad parts were identified."%string;
      "Indexes of bad parts: []"%string],
     Ok (Scalar NaN, [], [])).
Proof.
  intros Htrain Htest. unfold main_cell.
  rewrite train_envelope_closed_form, Htrain. cbn [length Z.of_nat].
  change (0 <? 400)%Z with true. cbn [firstn envelopes_of bind np_mean_axis0].
  rewrite firstn_nil. cbn [envelopes_of bind np_mean_axis0].
  destruct (test_loop_ok _ [] Htest) as (parts & ->). cbn [bind].
  destruct (check_parts_locals_eq g parts (Scalar NaN))
    as (_ & _ & _ & _ & Hd & Hi).
  unfold check_parts. rewrite Hd, Hi. cbn [np_mean F64.add].
  rewrite flagged_from_nan. reflexivity.
Qed.

(** X19: when the last cell ends normally, the envelope it used is the
    one trained on at most 400 signals, the report follows the trainer's
    output, the indices are strictly increasing positions of the test
    corpus, and the k-th flagged signal is the preprocessed test signal
    stored at the k-th index. *)
Theorem main_cell_report (g : globals) (envelope : ndarray)
        (bad : list (list R)) (idx : list nat) :
  snd (main_cell g) = Ok (envelope, bad, idx) ->
  snd (train_envelope g 400) = Ok envelope /\
  fst (main_cell g) =
    fst (train_envelope g 400) ++
    [(str_nat (length bad) ++ " bad parts were identified.")%string;
     ("Indexes of bad parts: " ++ str_list idx)%string] /\
  length bad = length idx /\
  StronglySorted lt idx /\
  forall k i,
    nth_error idx k = Some i ->
    exists data s,
      nth_error (test_data g) i = Some data /\
      preprocessing data = Ok s /\
      nth_error bad k = Some s.
Proof.
  unfold main_cell.
  destruct (train_envelope g 400) as [stdout [env | e]]; cbn [bind fst snd].
  2:{ discriminate. }
  destruct (test_loop (test_data g) []) as [parts | e] eqn:Hloop;
    cbn [bind]; [|discriminate].
  destruct (check_parts_locals_eq g parts env) as (_ & _ & _ & _ & Hd & Hi).
  unfold check_parts. rewrite Hd, Hi. cbn [bind fst snd].
  intros Heq. inversion Heq; subst. clear Heq.
  split; [reflexivity|]. split; [reflexivity|].
  split; [now rewrite !length_map|].
  split; [apply flagged_from_sorted|].
  intros k i Hk. apply flagged_from_lookup in Hk.
  destruct Hk as (s & Hs & Hn). rewrite Nat.sub_0_r in Hn.
  apply test_loop_inv in Hloop. destruct Hloop as (ps & -> & Hall).
  cbn [app] in Hn.
  destruct (Forall2_lookup_r _ _ _ Hall _ _ Hn) as (data & Hdata & Hp).
  exists data, s. auto.
Qed.

(** X20: no test signal is skipped: if preprocessing raises on one test
    signal the last cell raises, classifies nothing and prints nothing
    beyond what the trainer printed. *)
Theorem main_cell_bad_test_signal (g : globals) (data : list R) :
  In data (test_data g) ->
  raises (preprocessing data) ->
  raises (snd (main_cell g)) /\
  fst (main_cell g) = fst (train_envelope g 400).
Proof.
  intros Hin Hbad. unfold main_cell.
  destruct (train_envelope g 400) as [stdout [env | e]]; cbn [bind fst snd].
  - destruct (test_loop_raises _ _ [] Hin Hbad) as [e ->]. cbn [bind fst snd].
    split; [now exists e | reflexivity].
  - split; [now exists e | reflexivity].
Qed.

(** ** The data-loading cell *)

Lemma select_channel_column (SENSOR : string) (k : nat) :
  (SENSOR = "horizontal"%string /\ k = 4%nat) \/
  (SENSOR <> "horizontal"%string /\ k = 5%nat) ->
  forall data,
    (if String.eqb SENSOR "horizontal" then column data 4 else column data 5)
    = column data k.
Proof.
  intros [[-> ->] | [Hne ->]] data.
  - reflexivity.
  - apply String.eqb_neq in Hne. now rewrite Hne.
Qed.

Lemma column_some (data : array2) (k : nat) :
  well_shaped data -> (k < ncols data)%nat ->
  Forall2 (fun row v => nth_error row k = Some v)
          (rows data) (map (fun row => nth k row 0) (rows data)).
Proof.
  unfold well_shaped. intros Hshape Hk.
  induction Hshape as [|row rws Hrow _ IH]; cbn [map]; constructor; auto.
  apply nth_error_nth'. lia.
Qed.

(** X21: the channel selection keeps the corpus size and order and
    takes column 4 when [SENSOR] is ['horizontal'] and column 5 for every
    other string; it returns exactly when every array has more columns
    than that index, each signal then holding one sample per row of its
    array, and raises [IndexError] as soon as one array is narrower. *)
Theorem select_channel_columns (SENSOR : string) (corpus : list array2)
        (k : nat) :
  (SENSOR = "horizontal"%string /\ k = 4%nat) \/
  (SENSOR <> "horizontal"%string /\ k = 5%nat) ->
  (Forall (fun data => (k < ncols data)%nat) corpus ->
   exists channels,
     select_channel SENSOR corpus = Ok channels /\
     Forall2 (fun data channel =>
                length channel = length (rows data) /\
                (well_shaped data ->
                 Forall2 (fun row v => nth_error row k = Some v)
                         (rows data) channel))
             corpus channels) /\
  (Exists (fun data => (ncols data <= k)%nat) corpus ->
   select_channel SENSOR corpus = Raise IndexError).
Proof.
  intros Hk. pose proof (select_channel_column SENSOR k Hk) as Hcol.
  split.
  - induction 1 as [|data corpus Hdata _ IH].
    + exists []. split; [reflexivity | constructor].
    + destruct IH as (channels & Hsel & Hall).
      exists (map (fun row => nth k row 0) (rows data) :: channels).
      cbn [select_channel]. rewrite Hcol, Hsel. unfold column.
      apply Nat.ltb_lt in Hdata. rewrite Hdata. cbn [bind].
      split; [reflexivity|]. constructor; [|exact Hall].
      split; [apply length_map|].
      intros Hshape. apply column_some; [exact Hshape|].
      now apply Nat.ltb_lt.
  - induction 1 as [data corpus Hdata | data corpus _ IH];
      cbn [select_channel]; rewrite Hcol; unfold column.
    + apply Nat.ltb_ge in Hdata. now rewrite Hdata.
    + destruct (Nat.ltb k (ncols data)); [|reflexivity].
      cbn [bind]. now rewrite IH.
Qed.

Lemma select_channel_length (SENSOR : string) (corpus : list array2) :
  forall channels,
    select_channel SENSOR corpus = Ok channels ->
    length channels = length corpus.
Proof.
  induction corpus as [|data corpus IH]; intros channels Hsel;
    cbn [select_channel] in Hsel.
  - inversion Hsel. reflexivity.
  - destruct (if String.eqb SENSOR "horizontal"
              then column data 4 else column data 5) as [channel | e];
      cbn [bind] in Hsel; [|discriminate].
    destruct (select_channel SENSOR corpus) as [selected | e];
      cbn [bind] in Hsel; [|discriminate].
    inversion Hsel. cbn [length]. f_equal. now apply IH.
Qed.

(** X22: when the loading cell ends normally the notebook state holds
    one signal per pickled array of each corpus and the confidence level
    of the configuration, and the cell prints two lines that both read
    "Size training set:", the first with the size of the training corpus
    and the second with the size of the test corpus; when it raises it
    prints nothing. *)
Theorem load_cell_report (SENSOR : string) (confidence : R)
        (train_pkl test_pkl : list array2) :
  (forall g,
      snd (load_cell SENSOR confidence train_pkl test_pkl) = Ok g ->
      CONFIDENCE_LVL g = confidence /\
      length (train_data g) = length train_pkl /\
      length (test_data g) = length test_pkl /\
      fst (load_cell SENSOR confidence train_pkl test_pkl) =
        [("Size training set: " ++ str_nat (length train_pkl))%string;
         ("Size training set: " ++ str_nat (length test_pkl))%string]) /\
  (raises (snd (load_cell SENSOR confidence train_pkl test_pkl)) ->
   fst (load_cell SENSOR confidence train_pkl test_pkl) = []).
Proof.
  unfold load_cell.
  destruct (select_channel SENSOR train_pkl) as [train | e] eqn:Htrain;
    cbn [bind fst snd].
  - destruct (select_channel SENSOR test_pkl) as [test | e] eqn:Htest;
      cbn [bind fst snd].
    + apply select_channel_length in Htrain, Htest. split.
      * intros g Hg. inversion Hg; subst g.
        cbn [CONFIDENCE_LVL train_data test_data].
        rewrite Htrain, Htest. auto.
      * intros [e He]. discriminate.
    + split; [discriminate | reflexivity].
  - split; [discriminate | reflexivity].
Qed.

End Notebook.

(** ** The functions at concrete inputs *)

Lemma check_parts_threshold_rule_witness :
  Sample.envelope <> [] /\
  exists bad idx,
    check_parts Sample.norm_ppf Sample.notebook Sample.parts
                (Array1 Sample.envelope) = Ok (bad, idx) /\
    length bad = length idx.
Proof.
  assert (HE : Sample.envelope <> []) by (unfold Sample.envelope; discriminate).
  split; [exact HE|].
  destruct (check_parts_threshold_rule Sample.norm_ppf Sample.notebook
              Sample.parts Sample.envelope HE)
    as (_ & _ & _ & _ & bad & idx & Hret & Hlen & _).
  exists bad, idx. split; assumption.
Defined.

Lemma std_envelope_is_population_std_witness :
  Sample.envelope <> [] /\
  exists sigma, np_std (Array1 Sample.envelope) = Fin sigma /\ 0 <= sigma.
Proof.
  assert (HE : Sample.envelope <> []) by (unfold Sample.envelope; discriminate).
  split; [exact HE|].
  destruct (std_envelope_is_population_std Sample.norm_ppf Sample.notebook
              Sample.parts Sample.envelope HE)
    as (sigma & _ & Hstd & Hpos & _).
  exists sigma. split; assumption.
Defined.




(** The same happens on a constant envelope when the higher confidence
    level is so close to 1 that the quantile is +inf: inf * 0 is nan,
    while the threshold at confidence 0.95 is the constant. *)
Lemma threshold_order_fails_near_one :
  CONFIDENCE_LVL Sample.notebook <= CONFIDENCE_LVL Demo.near_one /\
  CONFIDENCE_LVL Demo.near_one < 1 /\
  threshold (check_parts_locals Demo.rounded_ppf Sample.notebook
               Sample.parts (Array1 [2; 2])) = Fin 2 /\
  threshold (check_parts_locals Demo.rounded_ppf Demo.near_one
               Sample.parts (Array1 [2; 2])) = NaN.
Proof.
  assert (HE : [2; 2] <> []) by discriminate.
  assert (Hc : Forall (fun v => v = 2) [2; 2]) by (repeat constructor).
  repeat split; try (cbn; lra).
  - destruct (check_parts_locals_eq Demo.rounded_ppf Sample.notebook
                Sample.parts (Array1 [2; 2])) as (_ & _ & _ & Ht & _).
    rewrite Ht, np_mean_nonempty, np_std_population by assumption.
    rewrite (arith_mean_const 2 _ HE Hc),
      (population_variance_const 2 _ HE Hc), sqrt_0.
    unfold Demo.rounded_ppf. cbn [CONFIDENCE_LVL Sample.notebook].
    destruct (Rle_dec _ _); [lra|]. cbn. f_equal. lra.
  - destruct (check_parts_locals_eq Demo.rounded_ppf Demo.near_one
                Sample.parts (Array1 [2; 2])) as (_ & _ & _ & Ht & _).
    rewrite Ht, np_mean_nonempty, np_std_population by assumption.
    rewrite (arith_mean_const 2 _ HE Hc),
      (population_variance_const 2 _ HE Hc), sqrt_0.
    unfold Demo.rounded_ppf. cbn [CONFIDENCE_LVL Demo.near_one].
    destruct (Rle_dec _ _); [|lra]. cbn. unfold F64.scale_inf.
    decide_reals. reflexivity.
Qed.

Lemma threshold_and_training_ignore_test_data_witness :
  threshold (check_parts_locals Sample.norm_ppf Sample.notebook
               Sample.parts (Array1 Sample.envelope)) =
  threshold (check_parts_locals Sample.norm_ppf Sample.one_bearing
               [] (Array1 Sample.envelope)) /\
  train_envelope Sample.butter_kernel Sample.filtfilt_kernel Sample.hilbert
    Sample.one_bearing 1 =
  train_envelope Sample.butter_kernel Sample.filtfilt_kernel Sample.hilbert
    (mkGlobals (1 / 2) (train_data Sample.one_bearing) Sample.parts) 1.
Proof.
  split.
  - apply (proj1 (threshold_and_training_ignore_test_data
                    Sample.butter_kernel Sample.filtfilt_kernel
                    Sample.hilbert Sample.norm_ppf)).
    reflexivity.
  - apply (proj2 (threshold_and_training_ignore_test_data
                    Sample.butter_kernel Sample.filtfilt_kernel
                    Sample.hilbert Sample.norm_ppf)).
    reflexivity.
Defined.

Lemma train_envelope_empty_corpus_witness :
  train_data Sample.notebook = [] /\
  train_envelope Sample.butter_kernel Sample.filtfilt_kernel Sample.hilbert
    Sample.notebook 400 = ([notice 0], Ok (Scalar NaN)).
Proof.
  split; [reflexivity|].
  apply (train_envelope_empty_corpus Sample.butter_kernel
           Sample.filtfilt_kernel Sample.hilbert Sample.notebook 400).
  reflexivity.
Defined.

Lemma train_envelope_clamps_witness :
  (Z.of_nat (length (train_data Sample.one_bearing)) < 400)%Z /\
  fst (train_envelope Sample.butter_kernel Sample.filtfilt_kernel
         Sample.hilbert Sample.one_bearing 400) = [notice 1] /\
  snd (train_envelope Sample.butter_kernel Sample.filtfilt_kernel
         Sample.hilbert Sample.one_bearing 400) =
  snd (train_envelope Sample.butter_kernel Sample.filtfilt_kernel
         Sample.hilbert Sample.one_bearing 1).
Proof.
  assert (Hlt : (Z.of_nat (length (train_data Sample.one_bearing)) < 400)%Z)
    by (cbn; lia).
  split; [exact Hlt|].
  destruct (train_envelope_clamps Sample.butter_kernel Sample.filtfilt_kernel
              Sample.hilbert Sample.one_bearing 400 Hlt)
    as (Hout & _ & Hres & _).
  split; [exact Hout | exact Hres].
Defined.

Lemma sample_preprocessing :
  preprocessing Sample.butter_kernel Sample.filtfilt_kernel [1; -2; 3; -4] =
  Ok (np_absolute [1; -2; 3; -4]).
Proof.
  unfold preprocessing, bandpass_filter, butter, sampling_rate.
  decide_reals. reflexivity.
Qed.

Lemma train_envelope_single_witness :
  train_data Sample.one_bearing = [[1; -2; 3; -4]] /\
  train_envelope Sample.butter_kernel Sample.filtfilt_kernel Sample.hilbert
    Sample.one_bearing 1 =
  ([], Ok (Array1 (np_abs (map (fun v => mkC v 0)
                               (np_absolute [1; -2; 3; -4]))))).
Proof.
  split; [reflexivity|].
  rewrite (train_envelope_single Sample.butter_kernel Sample.filtfilt_kernel
             Sample.hilbert Sample.one_bearing [1; -2; 3; -4] []
             eq_refl).
  rewrite sample_preprocessing. reflexivity.
Defined.

Lemma sample_butter :
  butter Sample.butter_kernel 4 1000 10000 sampling_rate = Ok ([1], [1]).
Proof.
  unfold butter, sampling_rate. decide_reals. reflexivity.
Qed.

Lemma bandpass_filter_invalid_witness :
  bandpass_filter Sample.butter_kernel Sample.filtfilt_kernel
    [1; -2; 3; -4] 10000 1000 4 = Raise ValueError /\
  bandpass_filter Sample.butter_kernel Sample.filtfilt_kernel
    [1; -2; 3; -4] 1000 12800 4 = Raise ValueError /\
  bandpass_filter Sample.butter_kernel Sample.filtfilt_kernel
    [1; -2; 3] 1000 10000 4 = Raise ValueError.
Proof.
  repeat split; apply bandpass_filter_invalid.
  - left. lra.
  - right; left. unfold sampling_rate. lra.
  - right; right. exists [1], [1]. split; [apply sample_butter|].
    cbn. lia.
Defined.

(** The reference statistics of the sample envelope [1; 3] are mean 2 and
    deviation 1; with the sample quantile the threshold at confidence
    0.95 is 3.9, and the corpus entries with means 9 and 4 are flagged. *)
Lemma sample_threshold :
  threshold (check_parts_locals Sample.norm_ppf Sample.notebook
               Sample.parts (Array1 Sample.envelope)) = Fin (39 / 10).
Proof.
  destruct (check_parts_locals_eq Sample.norm_ppf Sample.notebook
              Sample.parts (Array1 Sample.envelope)) as (_ & _ & _ & Ht & _).
  rewrite Ht, np_mean_nonempty, np_std_population
    by (unfold Sample.envelope; discriminate).
  unfold Sample.norm_ppf, Sample.envelope, Sample.notebook.
  cbn [CONFIDENCE_LVL F64.add F64.mul].
  replace (population_variance [1; 3]) with 1
    by (unfold population_variance, arith_mean; cbn; field).
  rewrite sqrt_1. f_equal. unfold arith_mean. cbn. lra.
Qed.

Lemma sample_check_parts :
  check_parts Sample.norm_ppf Sample.notebook Sample.parts
              (Array1 Sample.envelope) = Ok ([[9]; [4]], [1; 3]%nat).
Proof.
  destruct (check_parts_locals_eq Sample.norm_ppf Sample.notebook
              Sample.parts (Array1 Sample.envelope))
    as (_ & _ & _ & Ht & Hd & Hi).
  unfold check_parts. rewrite Hd, Hi, <- Ht, sample_threshold.
  unfold Sample.parts, flagged_from, mean1, np_sum, F64.gt.
  cbn [fold_left length INR].
  decide_reals. reflexivity.
Qed.

(** On an empty training corpus the call [train_envelope(400)] prints the
    notice and returns nan: it does not raise. *)
Lemma empty_corpus_returns_nan :
  train_envelope Sample.butter_kernel Sample.filtfilt_kernel Sample.hilbert
    Sample.notebook 400
  = (["Only 0 files in directory!"%string], Ok (Scalar NaN)) /\
  ~ raises (snd (train_envelope Sample.butter_kernel Sample.filtfilt_kernel
                   Sample.hilbert Sample.notebook 400)).
Proof.
  assert (Hrun : train_envelope Sample.butter_kernel Sample.filtfilt_kernel
                   Sample.hilbert Sample.notebook 400
                 = (["Only 0 files in directory!"%string], Ok (Scalar NaN)))
    by reflexivity.
  split; [exact Hrun|].
  rewrite Hrun. intros [e He]. discriminate He.
Qed.

(** On an empty reference envelope [check_parts] returns two empty lists:
    it does not raise, whatever the test corpus holds. *)
Lemma empty_reference_flags_nothing :
  check_parts Sample.norm_ppf Sample.notebook Sample.parts (Array1 [])
  = Ok ([], []) /\
  ~ raises (check_parts Sample.norm_ppf Sample.notebook Sample.parts
              (Array1 [])).
Proof.
  assert (Hrun : check_parts Sample.norm_ppf Sample.notebook Sample.parts
                   (Array1 []) = Ok ([], []))
    by reflexivity.
  split; [exact Hrun|].
  rewrite Hrun. intros [e He]. discriminate He.
Qed.

(** ** Further runs on concrete inputs *)

Lemma sample_preprocessing_long (data : list R) :
  (3 < length data)%nat ->
  preprocessing Sample.butter_kernel Sample.filtfilt_kernel data =
  Ok (np_absolute data).
Proof.
  intros Hlen.
  unfold preprocessing, bandpass_filter, butter, sampling_rate.
  decide_reals. cbn [Sample.butter_kernel bind].
  unfold filtfilt, padlen. cbn [length Nat.max Nat.mul Nat.add].
  apply Nat.leb_gt in Hlen. now rewrite Hlen.
Qed.

Lemma sample_preprocessing_short (data : list R) :
  (length data <= 3)%nat ->
  preprocessing Sample.butter_kernel Sample.filtfilt_kernel data =
  Raise ValueError.
Proof.
  intros Hlen.
  unfold preprocessing, bandpass_filter, butter, sampling_rate.
  decide_reals. cbn [Sample.butter_kernel bind].
  unfold filtfilt, padlen. cbn [length Nat.max Nat.mul Nat.add].
  apply Nat.leb_le in Hlen. now rewrite Hlen.
Qed.

Lemma sample_envelopes_of (signals : list (list R)) :
  Forall (fun data => (3 < length data)%nat) signals ->
  envelopes_of Sample.butter_kernel Sample.filtfilt_kernel Sample.hilbert
    signals = Ok (map Demo.envelope_of signals).
Proof.
  induction 1 as [|data signals Hdata _ IH]; [reflexivity|].
  cbn [envelopes_of]. rewrite sample_preprocessing_long, IH by assumption.
  reflexivity.
Qed.

Lemma demo_envelope_const (c : R) (data : list R) :
  0 <= c -> Forall (fun v => Rabs v = c) data ->
  Forall (fun v => v = c) (Demo.envelope_of data).
Proof.
  intros Hc. unfold Demo.envelope_of, np_abs, np_absolute.
  induction 1 as [|v data Hv _ IH]; cbn [map]; constructor; auto.
  unfold Cabs. cbn [re im]. rewrite Hv.
  replace (c * c + 0 * 0) with (Rsqr c) by (unfold Rsqr; ring).
  now apply sqrt_Rsqr.
Qed.

Lemma train_envelope_prefix_witness :
  train_envelope Sample.butter_kernel Sample.filtfilt_kernel Sample.hilbert
    Demo.state 1 =
  train_envelope Sample.butter_kernel Sample.filtfilt_kernel Sample.hilbert
    Demo.two_bearings 1.
Proof.
  apply train_envelope_prefix; cbn; try lia. reflexivity.
Defined.

Lemma train_envelope_nonpositive_witness :
  train_envelope Sample.butter_kernel Sample.filtfilt_kernel Sample.hilbert
    Demo.two_bearings 0 = ([], Ok (Scalar NaN)).
Proof.
  apply train_envelope_nonpositive. lia.
Defined.

Lemma train_envelope_length_mismatch_witness :
  snd (train_envelope Sample.butter_kernel Sample.filtfilt_kernel
         Sample.hilbert Demo.ragged 2) = Raise ValueError.
Proof.
  apply (train_envelope_length_mismatch Sample.butter_kernel
           Sample.filtfilt_kernel Sample.hilbert Demo.ragged 2
           (map Demo.envelope_of (train_data Demo.ragged))
           (Demo.envelope_of [2; -2; 2; -2])
           (Demo.envelope_of [1; 2; 3; 4; 5])).
  - apply sample_envelopes_of. repeat constructor; cbn; lia.
  - left. reflexivity.
  - right. left. reflexivity.
  - cbn. lia.
Defined.

Lemma sample_train_state :
  snd (train_envelope Sample.butter_kernel Sample.filtfilt_kernel
         Sample.hilbert Demo.state 400) =
  Ok (Array1 (map (fun s => s / INR 1) (Demo.envelope_of [2; -2; 2; -2]))).
Proof.
  rewrite train_envelope_closed_form. cbn [snd].
  change (firstn (Z.to_nat 400) (train_data Demo.state))
    with [[2; -2; 2; -2]].
  rewrite sample_envelopes_of by (repeat constructor; cbn; lia).
  reflexivity.
Qed.

Lemma train_envelope_elementwise_mean_witness :
  exists envs,
    envelopes_of Sample.butter_kernel Sample.filtfilt_kernel Sample.hilbert
      (firstn (Z.to_nat 400) (train_data Demo.state)) = Ok envs /\
    envs <> [].
Proof.
  destruct (train_envelope_elementwise_mean Sample.butter_kernel
              Sample.filtfilt_kernel Sample.hilbert Demo.state 400 _
              sample_train_state) as (envs & Henvs & Hne & _).
  exists envs. split; assumption.
Defined.

(** A non-empty corpus whose only signal is too short for the filter:
    the call with 400 requested signals is clamped to 1 and raises. *)
Lemma clamped_training_raises :
  train_data Demo.short_signal <> [] /\
  (Z.of_nat (length (train_data Demo.short_signal)) < 400)%Z /\
  train_envelope Sample.butter_kernel Sample.filtfilt_kernel Sample.hilbert
    Demo.short_signal 400 =
  (["Only 1 files in directory!"%string], Raise ValueError).
Proof.
  split; [discriminate|]. split; [cbn; lia|].
  rewrite train_envelope_closed_form. f_equal.
  change (firstn (Z.to_nat 400) (train_data Demo.short_signal))
    with [[1; 2; 3]].
  cbn [envelopes_of]. rewrite sample_preprocessing_short by (cbn; lia).
  reflexivity.
Qed.

Lemma train_envelope_bad_signal_witness :
  raises (snd (train_envelope Sample.butter_kernel Sample.filtfilt_kernel
                 Sample.hilbert Demo.short_signal 400)).
Proof.
  apply (train_envelope_bad_signal Sample.butter_kernel
           Sample.filtfilt_kernel Sample.hilbert Demo.short_signal 400
           [1; 2; 3]).
  - left. reflexivity.
  - exists ValueError. apply sample_preprocessing_short. cbn. lia.
Defined.

Lemma train_envelope_nonneg_witness :
  Forall (fun v => 0 <= v)
         (map (fun s => s / INR 1) (Demo.envelope_of [2; -2; 2; -2])).
Proof.
  exact (train_envelope_nonneg Sample.butter_kernel Sample.filtfilt_kernel
           Sample.hilbert Demo.state 400 _ sample_train_state).
Defined.

Lemma preprocessing_returns_witness :
  preprocessing Sample.butter_kernel Sample.filtfilt_kernel [1; -2; 3; -4]
  = Ok (map Rabs [1; -2; 3; -4]).
Proof.
  apply preprocessing_returns. exists [1], [1], [1; -2; 3; -4].
  repeat split. cbn. lia.
Defined.

Lemma preprocessing_nonempty_nonneg_witness :
  [1; -2; 3; -4] <> [] /\
  Forall (fun v => 0 <= v) (np_absolute [1; -2; 3; -4]).
Proof.
  apply (proj2 (preprocessing_nonempty_nonneg Sample.butter_kernel
                  Sample.filtfilt_kernel) [1; -2; 3; -4]).
  apply sample_preprocessing_long. cbn. lia.
Defined.

Lemma create_single_envelope_magnitude_witness :
  exists analytic,
    Sample.hilbert [3; -4] = Ok analytic /\
    length (np_abs (map (fun v => mkC v 0) [3; -4])) = length analytic.
Proof.
  destruct (create_single_envelope_magnitude Sample.hilbert [3; -4]
              (np_abs (map (fun v => mkC v 0) [3; -4])) eq_refl)
    as (analytic & Hh & Hlen & _).
  exists analytic. split; assumption.
Defined.

Lemma demo_reference_constant :
  Forall (fun v => v = 2)
         (map (fun s => s / INR 1) (Demo.envelope_of [2; -2; 2; -2])).
Proof.
  assert (Hc : Forall (fun v => v = 2) (Demo.envelope_of [2; -2; 2; -2])).
  { apply demo_envelope_const; [lra|].
    repeat constructor; unfold Rabs; destruct (Rcase_abs _); lra. }
  induction Hc as [|v l Hv _ IH]; cbn [map]; constructor; auto.
  subst v. cbn. lra.
Qed.

(** A full run of the last cell: one training signal of constant
    magnitude 2 gives the threshold 2; of the two test signals the one
    of magnitude 9 is flagged, at index 1. *)
Lemma demo_main_cell :
  main_cell Sample.butter_kernel Sample.filtfilt_kernel Sample.hilbert
    Sample.norm_ppf Demo.state =
  (["Only 1 files in directory!"%string;
    "1 bad parts were identified."%string;
    "Indexes of bad parts: [1]"%string],
   Ok (Array1 (map (fun s => s / INR 1) (Demo.envelope_of [2; -2; 2; -2])),
       [np_absolute [9; 9; 9; 9]], [1%nat])).
Proof.
  unfold main_cell.
  pose proof sample_train_state as Htrain.
  destruct (train_envelope Sample.butter_kernel Sample.filtfilt_kernel
              Sample.hilbert Demo.state 400) as [stdout trained] eqn:Hrun.
  assert (Hout : stdout = ["Only 1 files in directory!"%string]).
  { rewrite train_envelope_closed_form in Hrun. now inversion Hrun. }
  cbn [snd] in Htrain. subst stdout trained. cbn [bind].
  cbn [Demo.state test_data test_loop].
  rewrite !sample_preprocessing_long by (cbn; lia). cbn [bind app].
  set (E := map (fun s => s / INR 1) (Demo.envelope_of [2; -2; 2; -2])).
  assert (HE : E <> []) by discriminate.
  destruct (check_parts_locals_eq Sample.norm_ppf Demo.state
              [np_absolute [1; 1; 1; 1]; np_absolute [9; 9; 9; 9]]
              (Array1 E)) as (_ & _ & _ & _ & Hd & Hi).
  unfold check_parts. cbn [Demo.state] in Hd, Hi. rewrite Hd, Hi.
  rewrite np_mean_nonempty, np_std_population by assumption.
  rewrite (arith_mean_const 2 E HE demo_reference_constant),
    (population_variance_const 2 E HE demo_reference_constant), sqrt_0.
  unfold Sample.norm_ppf, np_absolute.
  cbn [CONFIDENCE_LVL F64.add F64.mul flagged_from map mean1 length].
  unfold np_sum. cbn [fold_left INR].
  replace (Rabs 1) with 1 by (unfold Rabs; destruct (Rcase_abs _); lra).
  replace (Rabs 9) with 9 by (unfold Rabs; destruct (Rcase_abs _); lra).
  unfold F64.gt. decide_reals. reflexivity.
Qed.

Lemma check_parts_nan_reference_witness :
  check_parts Sample.norm_ppf Sample.notebook Sample.parts (Scalar PInf)
  = Ok ([], []).
Proof.
  apply check_parts_nan_reference. right. reflexivity.
Defined.

Lemma check_parts_empty_signal_witness :
  exists bad idx,
    check_parts Sample.norm_ppf Sample.notebook [[]; [9]]
                (Array1 Sample.envelope) = Ok (bad, idx) /\
    ~ In 0%nat idx.
Proof.
  destruct (check_parts_empty_signal Sample.norm_ppf Sample.notebook
              [[]; [9]] (Array1 Sample.envelope))
    as (bad & idx & Hrun & _ & Hnever).
  exists bad, idx. split; [exact Hrun|]. apply Hnever. reflexivity.
Defined.

Lemma check_parts_spares_quiet_signals_witness :
  exists bad idx,
    check_parts Sample.norm_ppf Sample.notebook Sample.parts
                (Array1 Sample.envelope) = Ok (bad, idx) /\
    ~ In 0%nat idx.
Proof.
  destruct (check_parts_spares_quiet_signals Sample.norm_ppf Sample.notebook
              Sample.parts Sample.envelope
              (4 * ((1 + 95 / 100) / 2) - 2))
    as (bad & idx & Hrun & _ & Hquiet).
  - unfold Sample.envelope. discriminate.
  - reflexivity.
  - lra.
  - exists bad, idx. split; [exact Hrun|].
    apply (Hquiet 0%nat [1]); [reflexivity|].
    unfold Sample.envelope, arith_mean, mean1, np_sum, F64.gt.
    cbn [fold_left fold_right length INR]. decide_reals; reflexivity.
Defined.

Lemma main_cell_untrained_witness :
  main_cell Sample.butter_kernel Sample.filtfilt_kernel Sample.hilbert
    Sample.norm_ppf Demo.untrained =
  (["Only 0 files in directory!"%string;
    "0 bad parts were identified."%string;
    "Indexes of bad parts: []"%string],
   Ok (Scalar NaN, [], [])).
Proof.
  apply main_cell_untrained; [reflexivity|].
  repeat constructor; eexists; apply sample_preprocessing_long; cbn; lia.
Defined.

Lemma main_cell_report_witness :
  StronglySorted lt [1%nat] /\
  exists data s,
    nth_error (test_data Demo.state) 1 = Some data /\
    preprocessing Sample.butter_kernel Sample.filtfilt_kernel data = Ok s /\
    nth_error [np_absolute [9; 9; 9; 9]] 0 = Some s.
Proof.
  destruct (main_cell_report Sample.butter_kernel Sample.filtfilt_kernel
              Sample.hilbert Sample.norm_ppf Demo.state _ _ _
              (f_equal snd demo_main_cell))
    as (_ & _ & _ & Hsorted & Hlookup).
  split; [exact Hsorted|]. apply (Hlookup 0%nat 1%nat). reflexivity.
Defined.

Lemma demo_bad_test_trains :
  snd (train_envelope Sample.butter_kernel Sample.filtfilt_kernel
         Sample.hilbert Demo.bad_test 400) =
  Ok (Array1 (map (fun s => s / INR 1) (Demo.envelope_of [2; -2; 2; -2]))).
Proof.
  rewrite train_envelope_closed_form. cbn [snd].
  change (firstn (Z.to_nat 400) (train_data Demo.bad_test))
    with [[2; -2; 2; -2]].
  rewrite sample_envelopes_of by (repeat constructor; cbn; lia).
  reflexivity.
Qed.

Lemma main_cell_bad_test_signal_witness :
  (exists envelope,
      snd (train_envelope Sample.butter_kernel Sample.filtfilt_kernel
             Sample.hilbert Demo.bad_test 400) = Ok envelope) /\
  preprocessing Sample.butter_kernel Sample.filtfilt_kernel [9; 9; 9; 9]
    = Ok (np_absolute [9; 9; 9; 9]) /\
  raises (snd (main_cell Sample.butter_kernel Sample.filtfilt_kernel
                 Sample.hilbert Sample.norm_ppf Demo.bad_test)) /\
  fst (main_cell Sample.butter_kernel Sample.filtfilt_kernel
         Sample.hilbert Sample.norm_ppf Demo.bad_test) =
  fst (train_envelope Sample.butter_kernel Sample.filtfilt_kernel
         Sample.hilbert Demo.bad_test 400).
Proof.
  split; [eexists; apply demo_bad_test_trains|].
  split; [apply sample_preprocessing_long; cbn; lia|].
  apply (main_cell_bad_test_signal Sample.butter_kernel
           Sample.filtfilt_kernel Sample.hilbert Sample.norm_ppf
           Demo.bad_test []).
  - right. left. reflexivity.
  - exists ValueError. apply sample_preprocessing_short. cbn. lia.
Defined.

Lemma select_channel_columns_witness :
  (exists channels,
      select_channel "horizontal" [Demo.bearing_a; Demo.bearing_b]
      = Ok channels) /\
  select_channel "vertcal" [Demo.bearing_a; Demo.narrow] = Raise IndexError.
Proof.
  split.
  - destruct (select_channel_columns "horizontal"
                [Demo.bearing_a; Demo.bearing_b] 4) as [Hok _].
    + left. split; reflexivity.
    + destruct Hok as (channels & Hsel & _).
      * repeat constructor; cbn; lia.
      * now exists channels.
  - destruct (select_channel_columns "vertcal"
                [Demo.bearing_a; Demo.narrow] 5) as [_ Hfail].
    + right. split; [discriminate | reflexivity].
    + apply Hfail. right. left. cbn. lia.
Defined.

Lemma demo_load_cell :
  load_cell "vertical" (95 / 100) [Demo.bearing_a; Demo.bearing_b]
            [Demo.bearing_b] =
  (["Size training set: 2"%string; "Size training set: 1"%string],
   Ok (mkGlobals (95 / 100) [[10; 20]; [30]] [[30]])).
Proof. reflexivity. Qed.

Lemma load_cell_report_witness :
  length (train_data (mkGlobals (95 / 100) [[10; 20]; [30]] [[30]])) =
  length [Demo.bearing_a; Demo.bearing_b].
Proof.
  destruct (proj1 (load_cell_report "vertical" (95 / 100)
                     [Demo.bearing_a; Demo.bearing_b] [Demo.bearing_b])
                  _ (f_equal snd demo_load_cell))
    as (_ & Hlen & _).
  exact Hlen.
Defined.
